(** * The IP pool admission validator of the VM DHCP controller

    A shallow embedding of [pkg/webhook/ippool/validator.go] and of the
    parts of the Go library it calls ([net/netip], [net], [strings], the
    [kv] helper), followed by the properties of the validation rules. *)

From Stdlib Require Import ZArith List String Ascii Bool Lia DecimalString.
Import ListNotations.
Local Open Scope string_scope.
Local Open Scope Z_scope.

(** ** Go runtime: a call either returns or panics *)

Inductive outcome (A : Type) : Type :=
| Normal (a : A)
| Panic (msg : string).
Arguments Normal {A} a.
Arguments Panic {A} msg.

Definition bind {A B : Type} (c : outcome A) (k : A -> outcome B) : outcome B :=
  match c with
  | Normal a => k a
  | Panic msg => Panic msg
  end.

Declare Scope go_scope.
Delimit Scope go_scope with go.
Notation "x <- c ;; k" := (bind c (fun x => k))
  (at level 100, c at next level, right associativity) : go_scope.
Local Open Scope go_scope.

(** Fixed-width conversions, written as the masks they are. *)
Definition uint8 (x : Z) : Z := Z.land x 0xff.
Definition uint16 (x : Z) : Z := Z.land x 0xffff.
Definition uint32 (x : Z) : Z := Z.land x 0xffffffff.

Fixpoint bytes_eqb (a b : list Z) : bool :=
  match a, b with
  | [], [] => true
  | x :: a', y :: b' => (x =? y) && bytes_eqb a' b'
  | _, _ => false
  end.

(** ** net/netip *)

Module netip.

(** The [z] field of an address: [z0] for the zero value, [z4] for an
    IPv4 address, [z6 zone] for an IPv6 address ([z6 ""] is Go's
    [z6noz]). *)
Inductive addrDetail : Type :=
| z0
| z4
| z6 (zone : string).

Definition addrDetail_eqb (a b : addrDetail) : bool :=
  match a, b with
  | z0, z0 => true
  | z4, z4 => true
  | z6 s, z6 t => String.eqb s t
  | _, _ => false
  end.

Record uint128 : Type := { hi : Z; lo : Z }.

Record Addr : Type := { addr : uint128; z : addrDetail }.

Definition z6noz : addrDetail := z6 "".

(** [ip == ip2] on the struct. *)
Definition Addr_eqb (ip ip2 : Addr) : bool :=
  (hi (addr ip) =? hi (addr ip2)) && (lo (addr ip) =? lo (addr ip2))
  && addrDetail_eqb (z ip) (z ip2).

Definition IsValid (ip : Addr) : bool := negb (addrDetail_eqb (z ip) z0).

Definition Is4 (ip : Addr) : bool := addrDetail_eqb (z ip) z4.

Definition Is6 (ip : Addr) : bool :=
  negb (addrDetail_eqb (z ip) z0) && negb (addrDetail_eqb (z ip) z4).

Definition Is4In6 (ip : Addr) : bool :=
  Is6 ip && (hi (addr ip) =? 0) && (Z.shiftr (lo (addr ip)) 32 =? 0xffff).

Definition Zone (ip : Addr) : string :=
  match z ip with
  | z6 zone => zone
  | _ => ""
  end.

(** [byteorder.BEPutUint32]. *)
Definition BEPutUint32 (v : Z) : list Z :=
  [uint8 (Z.shiftr v 24); uint8 (Z.shiftr v 16); uint8 (Z.shiftr v 8); uint8 v].

Definition BEPutUint64 (v : Z) : list Z :=
  [uint8 (Z.shiftr v 56); uint8 (Z.shiftr v 48); uint8 (Z.shiftr v 40);
   uint8 (Z.shiftr v 32); uint8 (Z.shiftr v 24); uint8 (Z.shiftr v 16);
   uint8 (Z.shiftr v 8); uint8 v].

Definition As4 (ip : Addr) : outcome (list Z) :=
  if addrDetail_eqb (z ip) z4 || Is4In6 ip then
    Normal (BEPutUint32 (uint32 (lo (addr ip))))
  else if addrDetail_eqb (z ip) z0 then
    Panic "As4 called on IP zero value"
  else
    Panic "As4 called on IPv6 address".

(** [nil] and the empty slice are both the empty list: the callers only
    take the length. *)
Definition AsSlice (ip : Addr) : list Z :=
  match z ip with
  | z0 => []
  | z4 => BEPutUint32 (uint32 (lo (addr ip)))
  | z6 _ => (BEPutUint64 (hi (addr ip)) ++ BEPutUint64 (lo (addr ip)))%list
  end.

Definition v4 (ip : Addr) (i : Z) : Z :=
  uint8 (Z.shiftr (lo (addr ip)) ((3 - i) * 8)).

Definition v6u16 (ip : Addr) (i : Z) : Z :=
  let half := if (i / 4) mod 2 =? 0 then hi (addr ip) else lo (addr ip) in
  uint16 (Z.shiftr half ((3 - i mod 4) * 16)).

Definition digits : string := "0123456789abcdef".

Definition digit (i : Z) : string :=
  match String.get (Z.to_nat i) digits with
  | Some c => String c EmptyString
  | None => ""
  end.

Definition appendDecimal (b : string) (x : Z) : string :=
  let b := if x >=? 100 then b ++ digit (x / 100) else b in
  let b := if x >=? 10 then b ++ digit (x / 10 mod 10) else b in
  b ++ digit (x mod 10).

Definition appendHex (b : string) (x : Z) : string :=
  let b := if x >=? 0x1000 then b ++ digit (Z.shiftr x 12) else b in
  let b := if x >=? 0x100 then b ++ digit (Z.land (Z.shiftr x 8) 0xf) else b in
  let b := if x >=? 0x10 then b ++ digit (Z.land (Z.shiftr x 4) 0xf) else b in
  b ++ digit (Z.land x 0xf).

Definition appendTo4 (ret : string) (ip : Addr) : string :=
  let ret := appendDecimal ret (v4 ip 0) in
  let ret := appendDecimal (ret ++ ".") (v4 ip 1) in
  let ret := appendDecimal (ret ++ ".") (v4 ip 2) in
  appendDecimal (ret ++ ".") (v4 ip 3).

Definition string4 (ip : Addr) : string := appendTo4 "" ip.

Definition appendZone (ret : string) (ip : Addr) : string :=
  if addrDetail_eqb (z ip) z6noz then ret else ret ++ "%" ++ Zone ip.

Definition string4In6 (ip : Addr) : string :=
  appendZone (appendTo4 "::ffff:" ip) ip.

(** The inner loop of [appendTo6]: the first index at or after [j], below
    8, whose 16-bit group is not zero. *)
Fixpoint zeroRunEnd (ip : Addr) (n : nat) (j : Z) : Z :=
  match n with
  | O => j
  | S n' => if (j <? 8) && (v6u16 ip j =? 0) then zeroRunEnd ip n' (j + 1) else j
  end.

(** The first loop of [appendTo6]: the longest run of two or more zero
    groups, the earliest among the longest; (255, 255) when none. *)
Fixpoint longestZeroRun (ip : Addr) (n : nat) (i : Z) (zs ze : Z) : Z * Z :=
  match n with
  | O => (zs, ze)
  | S n' =>
      let j := zeroRunEnd ip 8 i in
      let l := j - i in
      if (l >=? 2) && (l >? ze - zs)
      then longestZeroRun ip n' (i + 1) i j
      else longestZeroRun ip n' (i + 1) zs ze
  end.

(** The second loop of [appendTo6], [n] bounding the iterations left. *)
Fixpoint appendGroups (ip : Addr) (zs ze : Z) (n : nat) (i : Z) (ret : string)
  : string :=
  match n with
  | O => ret
  | S n' =>
      if i <? 8 then
        if i =? zs then
          let ret := ret ++ "::" in
          let i := ze in
          if i >=? 8 then ret
          else appendGroups ip zs ze n' (i + 1) (appendHex ret (v6u16 ip i))
        else
          let ret := if i >? 0 then ret ++ ":" else ret in
          appendGroups ip zs ze n' (i + 1) (appendHex ret (v6u16 ip i))
      else ret
  end.

Definition string6 (ip : Addr) : string :=
  let '(zs, ze) := longestZeroRun ip 8 0 255 255 in
  appendZone (appendGroups ip zs ze 8 0 "") ip.

Definition String (ip : Addr) : string :=
  match z ip with
  | z0 => "invalid IP"
  | z4 => string4 ip
  | z6 _ => if Is4In6 ip then string4In6 ip else string6 ip
  end.

(** [AddrFrom4] on the four bytes of the array. *)
Definition AddrFrom4 (a b c d : Z) : Addr :=
  {| addr := {| hi := 0;
                lo := Z.lor 0xffff00000000
                        (Z.lor (Z.shiftl a 24)
                           (Z.lor (Z.shiftl b 16) (Z.lor (Z.shiftl c 8) d))) |};
     z := z4 |}.

(** [::ffff:a.b.c.d], the IPv4-mapped IPv6 form of the same four bytes. *)
Definition Addr4In6 (a b c d : Z) : Addr :=
  {| addr := addr (AddrFrom4 a b c d); z := z6noz |}.

(** The zero [Addr]: an optional address that is not set. *)
Definition zeroAddr : Addr := {| addr := {| hi := 0; lo := 0 |}; z := z0 |}.

(** The IPv4 address as a number, [uint32(ip.addr.lo)]. *)
Definition v4value (ip : Addr) : Z := uint32 (lo (addr ip)).

(** [ip.Unmap()]: an IPv4-mapped IPv6 address becomes the IPv4 address. *)
Definition Unmap (ip : Addr) : Addr :=
  if Is4In6 ip then {| addr := addr ip; z := z4 |} else ip.

(** The two halves of the address are 64-bit values. *)
Definition inRange (ip : Addr) : bool :=
  (0 <=? hi (addr ip)) && (hi (addr ip) <? 2 ^ 64)
  && (0 <=? lo (addr ip)) && (lo (addr ip) <? 2 ^ 64).

End netip.

(** ** net *)

Module net.

Definition IPv4len : nat := 4.
Definition IPv6len : nat := 16.

(** [IP] and [IPMask] are byte slices. *)
Record IPNet : Type := { IP : list Z; Mask : list Z }.

Definition isZeros (p : list Z) : bool := forallb (fun b => b =? 0) p.

(** The first twelve bytes of an IPv4 address in its 16-byte form. *)
Definition v4InV6Prefix : list Z := [0; 0; 0; 0; 0; 0; 0; 0; 0; 0; 0xff; 0xff].

(** [ip.To4()]; [None] is the nil result. *)
Definition To4 (ip : list Z) : option (list Z) :=
  if Nat.eqb (List.length ip) IPv4len then Some ip
  else if Nat.eqb (List.length ip) IPv6len
          && isZeros (firstn 10 ip)
          && (nth 10 ip 0 =? 0xff)
          && (nth 11 ip 0 =? 0xff)
  then Some (firstn 4 (skipn 12 ip))
  else None.

Definition networkNumberAndMask (n : IPNet) : list Z * list Z :=
  let step (ip : list Z) :=
    let m := Mask n in
    if Nat.eqb (List.length m) IPv4len then
      if negb (Nat.eqb (List.length ip) IPv4len) then ([], []) else (ip, m)
    else if Nat.eqb (List.length m) IPv6len then
      if Nat.eqb (List.length ip) IPv4len then (ip, skipn 12 m) else (ip, m)
    else ([], [])
  in
  match To4 (IP n) with
  | Some ip => step ip
  | None =>
      let ip := IP n in
      if negb (Nat.eqb (List.length ip) IPv6len) then ([], []) else step ip
  end.

(** [n.Contains(ip)] for a receiver that is not nil. *)
Definition Contains (n : IPNet) (ip : list Z) : bool :=
  let '(nn, m) := networkNumberAndMask n in
  let ip := match To4 ip with Some x => x | None => ip end in
  let l := List.length ip in
  if negb (Nat.eqb l (List.length nn)) then false
  else
    forallb (fun i => Z.land (nth i nn 0) (nth i m 0) =? Z.land (nth i ip 0) (nth i m 0))
            (seq 0 l).

End net.

(** ** Errors

    An [error] value is what a caller can observe of it: the message
    [fmt.Errorf] renders when the format is a literal of this file, the
    format and operands when the format is a constant declared elsewhere,
    and the status errors the caches return. A nil error is [None]. *)

Inductive error : Type :=
| errorString (msg : string)
| StatusError (reason : string) (message : string)
| formatted (format : string) (operands : list string) (err : error).

(** ** util *)

Module util.

(** Modelled from the spec: the type [util.PoolInfo] is declared outside
    this file; its fields are the ones the validator reads, the subnet a
    pointer that may be nil and every address a [netip.Addr] whose zero
    value stands for a bound that is not set. *)
Record PoolInfo : Type := {
  IPNet : option net.IPNet;
  NetworkIPAddr : netip.Addr;
  BroadcastIPAddr : netip.Addr;
  StartIPAddr : netip.Addr;
  EndIPAddr : netip.Addr;
  ServerIPAddr : netip.Addr;
  RouterIPAddr : netip.Addr
}.

End util.

(** ** strings *)

Module strings.

Definition bytes (l : list nat) : string :=
  fold_right (fun n s => String (ascii_of_nat n) s) EmptyString l.

(** The UTF-8 encodings of the code points [unicode.IsSpace] accepts:
    tab, line feed, vertical tab, form feed, carriage return, space,
    U+0085, U+00A0, U+1680, U+2000 to U+200A, U+2028, U+2029, U+202F,
    U+205F and U+3000. *)
Definition spaces : list string :=
  map bytes
    [ [9]; [10]; [11]; [12]; [13]; [32];
      [194; 133]; [194; 160]; [225; 154; 128];
      [226; 128; 128]; [226; 128; 129]; [226; 128; 130]; [226; 128; 131];
      [226; 128; 132]; [226; 128; 133]; [226; 128; 134]; [226; 128; 135];
      [226; 128; 136]; [226; 128; 137]; [226; 128; 138];
      [226; 128; 168]; [226; 128; 169]; [226; 128; 175];
      [226; 129; 159]; [227; 128; 128] ]%nat.

Fixpoint rev (s : string) : string :=
  match s with
  | EmptyString => EmptyString
  | String c s' => rev s' ++ String c EmptyString
  end.

(** [s] without the prefix [p], when it starts with it. *)
Fixpoint cutPrefix (p s : string) : option string :=
  match p, s with
  | EmptyString, _ => Some s
  | String a p', String b s' => if Ascii.eqb a b then cutPrefix p' s' else None
  | String _ _, EmptyString => None
  end.

Fixpoint cutAnyPrefix (ps : list string) (s : string) : option string :=
  match ps with
  | [] => None
  | p :: ps' =>
      match cutPrefix p s with
      | Some s' => Some s'
      | None => cutAnyPrefix ps' s
      end
  end.

(** Drops leading code points taken from [ps]; [n] bounds the number of
    code points dropped. *)
Fixpoint trimLeft (ps : list string) (n : nat) (s : string) : string :=
  match n with
  | O => s
  | S n' =>
      match cutAnyPrefix ps s with
      | Some s' => trimLeft ps n' s'
      | None => s
      end
  end.

(** [strings.TrimSpace]: leading white space goes first, then trailing
    white space of what is left. *)
Definition TrimSpace (s : string) : string :=
  let s := trimLeft spaces (String.length s) s in
  rev (trimLeft (map rev spaces) (String.length s) (rev s)).

(** [strings.Index(s, sep)], for a separator that is not empty. *)
Definition Index (s sep : string) : option nat := String.index 0 sep s.

(** [strings.SplitN(s, sep, 2)], for a separator that is not empty: the
    text before and after the first [sep], or [s] alone. *)
Definition SplitN2 (s sep : string) : list string :=
  match Index s sep with
  | Some i =>
      [String.substring 0 i s;
       String.substring (i + String.length sep)
                        (String.length s - (i + String.length sep)) s]
  | None => [s]
  end.

(** [strings.Join]. *)
Definition Join (elems : list string) (sep : string) : string :=
  String.concat sep elems.

(** [strconv.Itoa] on a length, the rendering of [%d]. *)
Definition Itoa (n : nat) : string := NilEmpty.string_of_uint (Nat.to_uint n).

End strings.

(** ** kv (github.com/rancher/wrangler/pkg/kv)

    [RSplit] is the library's
<<
    // Like split but if there is only one item return "", item
    func RSplit(s, sep string) (string, string) {
        parts := strings.SplitN(s, sep, 2)
        if len(parts) == 1 {
            return "", strings.TrimSpace(parts[0])
        }
        return strings.TrimSpace(parts[0]), strings.TrimSpace(safeIndex(parts, 1))
    }
>>
*)

Module kv.

Definition safeIndex (parts : list string) (idx : nat) : string :=
  if Nat.leb (List.length parts) idx then "" else nth idx parts "".

Definition RSplit (s sep : string) : string * string :=
  let parts := strings.SplitN2 s sep in
  if Nat.eqb (List.length parts) 1 then
    ("", strings.TrimSpace (nth 0 parts ""))
  else
    (strings.TrimSpace (nth 0 parts ""), strings.TrimSpace (safeIndex parts 1)).

End kv.

(** ** API objects and collaborators *)

(** Modelled from the spec: the type [networkv1.VirtualMachineNetworkConfig]
    is declared outside this file; a dependent record is identified by its
    namespace and name. *)
Module VirtualMachineNetworkConfig.
Record t : Type := { Namespace : string; Name : string }.
End VirtualMachineNetworkConfig.

(** Modelled from the spec: the type [networkv1.IPPool] is declared outside
    this file; these are the fields the validator reads, the pool
    description as the strings the loader parses, the deletion timestamp
    and the allocation map of the status as optional values. *)
Module IPPool.
Record IPv4ConfigSpec : Type := {
  CIDR : string;
  ServerIP : string;
  PoolStart : string;
  PoolEnd : string;
  Router : string
}.
Record IPPoolSpec : Type := { IPv4Config : IPv4ConfigSpec; NetworkName : string }.
Record IPv4Status : Type := { Allocated : list (string * string) }.
Record IPPoolStatus : Type := { IPv4 : option IPv4Status }.
Record t : Type := {
  Kind : string;
  Namespace : string;
  Name : string;
  DeletionTimestamp : option Z;
  Spec : IPPoolSpec;
  Status : IPPoolStatus
}.
End IPPool.

(** Modelled from the spec: the interface
    [ctlcniv1.NetworkAttachmentDefinitionCache] is generated outside this
    file; the validator calls its method [Get], which returns the record
    found (none on failure) and an error. *)
Module ctlcniv1.
Record NetworkAttachmentDefinition : Type := { Namespace : string; Name : string }.
Record NetworkAttachmentDefinitionCache : Type := {
  Get : string -> string -> option NetworkAttachmentDefinition * option error
}.
End ctlcniv1.

(** What a call of the validator does besides returning: the lines it logs
    and the calls it makes to its collaborators, in order. *)
Inductive event : Type :=
| Infof (msg : string)
| CallLoadPool (ipPool : IPPool.t)
| CallLoadAllocated (allocated : list (string * string))
| CallNadCacheGet (namespace name : string)
| CallWhoUseIPPool (ipPool : IPPool.t).

Definition traced (A : Type) : Type := (list event * outcome A)%type.

Definition tret {A : Type} (a : A) : traced A := ([], Normal a).

Definition tbind {A B : Type} (c : traced A) (k : A -> traced B) : traced B :=
  match c with
  | (t, Normal a) => let '(t', r) := k a in ((t ++ t')%list, r)
  | (t, Panic msg) => (t, Panic msg)
  end.

Definition emit (e : event) : traced unit := ([e], Normal tt).

Definition call {A : Type} (e : event) (r : A) : traced A := ([e], Normal r).

Definition lift {A : Type} (c : outcome A) : traced A := ([], c).

(** The two parts of a traced call. *)
Definition trace {A : Type} (c : traced A) : list event := fst c.

Definition verdict {A : Type} (c : traced A) : outcome A := snd c.

Declare Scope traced_scope.
Delimit Scope traced_scope with traced.
Notation "x <- c ;; k" := (tbind c (fun x => k))
  (at level 100, c at next level, right associativity) : traced_scope.

(** ** The validator: address rules *)

Module ippool.

Import util.

(** [pi.IPNet.Contains(ip.AsSlice())]; the method reads the fields of its
    receiver, so a nil subnet panics. *)
Definition IPNet_Contains (pi : PoolInfo) (ip : netip.Addr) : outcome bool :=
  match IPNet pi with
  | Some n => Normal (net.Contains n (netip.AsSlice ip))
  | None => Panic "runtime error: invalid memory address or nil pointer dereference"
  end.

(** [a.As4() == b.As4()], the left operand evaluated first. *)
Definition As4_equal (a b : netip.Addr) : outcome bool :=
  x <- netip.As4 a ;;
  y <- netip.As4 b ;;
  Normal (bytes_eqb x y).

Definition checkPoolRange_end (pi : PoolInfo) : outcome (option error) :=
  if netip.IsValid (EndIPAddr pi) then
    c <- IPNet_Contains pi (EndIPAddr pi) ;;
    if negb c then
      Normal (Some (errorString ("end ip " ++ netip.String (EndIPAddr pi) ++ " is not within subnet")))
    else
      e <- As4_equal (EndIPAddr pi) (NetworkIPAddr pi) ;;
      if e then
        Normal (Some (errorString ("end ip " ++ netip.String (EndIPAddr pi) ++ " is the same as network ip")))
      else
        e <- As4_equal (EndIPAddr pi) (BroadcastIPAddr pi) ;;
        if e then
          Normal (Some (errorString ("end ip " ++ netip.String (EndIPAddr pi) ++ " is the same as broadcast ip")))
        else Normal None
  else Normal None.

Definition checkPoolRange (pi : PoolInfo) : outcome (option error) :=
  if netip.IsValid (StartIPAddr pi) then
    c <- IPNet_Contains pi (StartIPAddr pi) ;;
    if negb c then
      Normal (Some (errorString ("start ip " ++ netip.String (StartIPAddr pi) ++ " is not within subnet")))
    else
      e <- As4_equal (StartIPAddr pi) (NetworkIPAddr pi) ;;
      if e then
        Normal (Some (errorString ("start ip " ++ netip.String (StartIPAddr pi) ++ " is the same as network ip")))
      else
        e <- As4_equal (StartIPAddr pi) (BroadcastIPAddr pi) ;;
        if e then
          Normal (Some (errorString ("start ip " ++ netip.String (StartIPAddr pi) ++ " is the same as broadcast ip")))
        else checkPoolRange_end pi
  else checkPoolRange_end pi.

(** The loop over [allocatedIPs] of [checkServerIP]. *)
Fixpoint checkServerIP_allocated (pi : PoolInfo) (allocatedIPs : list netip.Addr)
  : option error :=
  match allocatedIPs with
  | [] => None
  | ip :: rest =>
      if netip.Addr_eqb (ServerIPAddr pi) ip then
        Some (errorString ("server ip " ++ netip.String (ServerIPAddr pi) ++ " is already allocated"))
      else checkServerIP_allocated pi rest
  end.

Definition checkServerIP (pi : PoolInfo) (allocatedIPs : list netip.Addr)
  : outcome (option error) :=
  if negb (netip.IsValid (ServerIPAddr pi)) then Normal None
  else
    c <- IPNet_Contains pi (ServerIPAddr pi) ;;
    if negb c then
      Normal (Some (errorString ("server ip " ++ netip.String (ServerIPAddr pi) ++ " is not within subnet")))
    else
      e <- As4_equal (ServerIPAddr pi) (NetworkIPAddr pi) ;;
      if e then
        Normal (Some (errorString ("server ip " ++ netip.String (ServerIPAddr pi) ++ " cannot be the same as network ip")))
      else
        e <- As4_equal (ServerIPAddr pi) (BroadcastIPAddr pi) ;;
        if e then
          Normal (Some (errorString ("server ip " ++ netip.String (ServerIPAddr pi) ++ " cannot be the same as broadcast ip")))
        else
          e <- (if netip.IsValid (RouterIPAddr pi)
                then As4_equal (ServerIPAddr pi) (RouterIPAddr pi)
                else Normal false) ;;
          if e then
            Normal (Some (errorString ("server ip " ++ netip.String (ServerIPAddr pi) ++ " cannot be the same as router ip")))
          else Normal (checkServerIP_allocated pi allocatedIPs).

Definition checkRouter (pi : PoolInfo) : outcome (option error) :=
  if negb (netip.IsValid (RouterIPAddr pi)) then Normal None
  else
    c <- IPNet_Contains pi (RouterIPAddr pi) ;;
    if negb c then
      Normal (Some (errorString ("router ip " ++ netip.String (RouterIPAddr pi) ++ " is not within subnet")))
    else
      e <- As4_equal (RouterIPAddr pi) (NetworkIPAddr pi) ;;
      if e then
        Normal (Some (errorString ("router ip " ++ netip.String (RouterIPAddr pi) ++ " is the same as network ip")))
      else
        e <- As4_equal (RouterIPAddr pi) (BroadcastIPAddr pi) ;;
        if e then
          Normal (Some (errorString ("router ip " ++ netip.String (BroadcastIPAddr pi) ++ " is the same as broadcast ip")))
        else Normal None.

(** *** Entry points *)

Section Validator.

(** Declared outside this file and taken as given: the loader
    [util.LoadPool], the accessor [util.LoadAllocated], the dependency
    lookup [util.VmnetcfgGetter.WhoUseIPPool] over its cache, and the
    format constants [webhook.CreateErr] and [webhook.DeleteErr]. *)
Variable LoadPool : IPPool.t -> PoolInfo * option error.
Variable LoadAllocated : list (string * string) -> list netip.Addr.
Variable VirtualMachineNetworkConfigCache : Type.
Variable WhoUseIPPool :
  VirtualMachineNetworkConfigCache -> IPPool.t ->
  list VirtualMachineNetworkConfig.t * option error.
Variable CreateErr : string.
Variable DeleteErr : string.

Record Validator : Type := {
  nadCache : ctlcniv1.NetworkAttachmentDefinitionCache;
  vmnetcfgCache : VirtualMachineNetworkConfigCache
}.

Local Open Scope traced_scope.

Definition checkNAD (v : Validator) (namespacedName : string)
  : traced (option error) :=
  let '(nadNamespace, nadName) := kv.RSplit namespacedName "/" in
  let nadNamespace :=
    if String.eqb nadNamespace "" then "default" else nadNamespace in
  r <- call (CallNadCacheGet nadNamespace nadName)
            (ctlcniv1.Get (nadCache v) nadNamespace nadName) ;;
  tret (snd r).

Definition checkVmNetCfgs (v : Validator) (ipPool : IPPool.t)
  : traced (option error) :=
  r <- call (CallWhoUseIPPool ipPool) (WhoUseIPPool (vmnetcfgCache v) ipPool) ;;
  let '(vmNetCfgs, err) := r in
  match err with
  | Some err => tret (Some err)
  | None =>
      _ <- emit (Infof (strings.Itoa (List.length vmNetCfgs) ++ " vmnetcfg(s) associated")) ;;
      if Nat.ltb 0 (List.length vmNetCfgs) then
        let vmNetCfgNames :=
          map (fun vmNetCfg =>
                 VirtualMachineNetworkConfig.Namespace vmNetCfg ++ "/"
                 ++ VirtualMachineNetworkConfig.Name vmNetCfg) vmNetCfgs in
        tret (Some (errorString
                      ("it's still used by VirtualMachineNetworkConfig(s) "
                       ++ strings.Join vmNetCfgNames ", "
                       ++ ", which must be removed at first")))
      else tret None
  end.

Definition Create (v : Validator) (newObj : IPPool.t) : traced (option error) :=
  let ipPool := newObj in
  _ <- emit (Infof ("create ippool " ++ IPPool.Namespace ipPool ++ "/"
                    ++ IPPool.Name ipPool)) ;;
  r <- call (CallLoadPool ipPool) (LoadPool ipPool) ;;
  let '(poolInfo, err) := r in
  match err with
  | Some err =>
      tret (Some (formatted CreateErr
                    ["IPPool"; IPPool.Namespace ipPool; IPPool.Name ipPool] err))
  | None =>
      err <- checkNAD v (IPPool.NetworkName (IPPool.Spec ipPool)) ;;
      match err with
      | Some err =>
          tret (Some (formatted CreateErr
                        ["IPPool"; IPPool.Namespace ipPool; IPPool.Name ipPool] err))
      | None =>
          err <- lift (checkPoolRange poolInfo) ;;
          match err with
          | Some err =>
              tret (Some (formatted CreateErr
                            ["IPPool"; IPPool.Namespace ipPool; IPPool.Name ipPool] err))
          | None =>
              err <- lift (checkServerIP poolInfo []) ;;
              match err with
              | Some err =>
                  tret (Some (formatted CreateErr
                                ["IPPool"; IPPool.Namespace ipPool; IPPool.Name ipPool]
                                err))
              | None =>
                  err <- lift (checkRouter poolInfo) ;;
                  match err with
                  | Some err =>
                      tret (Some (formatted CreateErr
                                    ["IPPool"; IPPool.Namespace ipPool;
                                     IPPool.Name ipPool] err))
                  | None => tret None
                  end
              end
          end
      end
  end.

Definition Update (v : Validator) (oldObj newObj : IPPool.t)
  : traced (option error) :=
  let ipPool := newObj in
  match IPPool.DeletionTimestamp ipPool with
  | Some _ => tret None
  | None =>
      _ <- emit (Infof ("update ippool " ++ IPPool.Namespace ipPool ++ "/"
                        ++ IPPool.Name ipPool)) ;;
      r <- call (CallLoadPool ipPool) (LoadPool ipPool) ;;
      let '(poolInfo, err) := r in
      match err with
      | Some err =>
          tret (Some (formatted CreateErr
                        ["IPPool"; IPPool.Namespace ipPool; IPPool.Name ipPool] err))
      | None =>
          allocatedIPAddrList <-
            match IPPool.IPv4 (IPPool.Status ipPool) with
            | Some st =>
                call (CallLoadAllocated (IPPool.Allocated st))
                     (LoadAllocated (IPPool.Allocated st))
            | None => tret []
            end ;;
          err <- checkNAD v (IPPool.NetworkName (IPPool.Spec ipPool)) ;;
          match err with
          | Some err =>
              tret (Some (formatted CreateErr
                            ["IPPool"; IPPool.Namespace ipPool; IPPool.Name ipPool] err))
          | None =>
              err <- lift (checkPoolRange poolInfo) ;;
              match err with
              | Some err =>
                  tret (Some (formatted CreateErr
                                ["IPPool"; IPPool.Namespace ipPool; IPPool.Name ipPool]
                                err))
              | None =>
                  err <- lift (checkServerIP poolInfo allocatedIPAddrList) ;;
                  match err with
                  | Some err =>
                      tret (Some (formatted CreateErr
                                    ["IPPool"; IPPool.Namespace ipPool;
                                     IPPool.Name ipPool] err))
                  | None =>
                      err <- lift (checkRouter poolInfo) ;;
                      match err with
                      | Some err =>
                          tret (Some (formatted CreateErr
                                        ["IPPool"; IPPool.Namespace ipPool;
                                         IPPool.Name ipPool] err))
                      | None => tret None
                      end
                  end
              end
          end
      end
  end.

Definition Delete (v : Validator) (oldObj : IPPool.t) : traced (option error) :=
  let ipPool := oldObj in
  _ <- emit (Infof ("delete ippool " ++ IPPool.Namespace ipPool ++ "/"
                    ++ IPPool.Name ipPool)) ;;
  err <- checkVmNetCfgs v ipPool ;;
  match err with
  | Some err =>
      tret (Some (formatted DeleteErr
                    [IPPool.Kind ipPool; IPPool.Namespace ipPool; IPPool.Name ipPool]
                    err))
  | None => tret None
  end.

End Validator.

Arguments nadCache {VirtualMachineNetworkConfigCache} v.
Arguments vmnetcfgCache {VirtualMachineNetworkConfigCache} v.
Arguments checkNAD {VirtualMachineNetworkConfigCache} v namespacedName.
Arguments checkVmNetCfgs {VirtualMachineNetworkConfigCache} WhoUseIPPool v ipPool.
Arguments Create LoadPool {VirtualMachineNetworkConfigCache} CreateErr v newObj.
Arguments Update LoadPool LoadAllocated {VirtualMachineNetworkConfigCache}
  CreateErr v oldObj newObj.
Arguments Delete {VirtualMachineNetworkConfigCache} WhoUseIPPool DeleteErr v oldObj.

End ippool.



(** ** The rules as the specification words them *)

Module Rules.

Import util.

(** A pool of the IPv4 family: the subnet is set, the network and the
    broadcast address have a 4-byte form, and so has every optional
    address that is set. *)
Definition has4 (ip : netip.Addr) : bool := netip.Is4 ip || netip.Is4In6 ip.

Definition optional4 (ip : netip.Addr) : bool := negb (netip.IsValid ip) || has4 ip.

Definition ipv4Pool (pi : PoolInfo) : bool :=
  match IPNet pi with Some _ => true | None => false end
  && has4 (NetworkIPAddr pi) && has4 (BroadcastIPAddr pi)
  && optional4 (StartIPAddr pi) && optional4 (EndIPAddr pi)
  && optional4 (ServerIPAddr pi) && optional4 (RouterIPAddr pi).

(** The same, restricted to what one check reads of the pool: the range
    check reads the two bounds, the server check the server and the router
    address; both read the subnet, the network and the broadcast address. *)
Definition rangeFamily (pi : PoolInfo) : bool :=
  match IPNet pi with Some _ => true | None => false end
  && has4 (NetworkIPAddr pi) && has4 (BroadcastIPAddr pi)
  && optional4 (StartIPAddr pi) && optional4 (EndIPAddr pi).

Definition serverFamily (pi : PoolInfo) : bool :=
  match IPNet pi with Some _ => true | None => false end
  && has4 (NetworkIPAddr pi) && has4 (BroadcastIPAddr pi)
  && optional4 (ServerIPAddr pi) && optional4 (RouterIPAddr pi).

(** Membership in the subnet. *)
Definition within (pi : PoolInfo) (x : netip.Addr) : bool :=
  match IPNet pi with
  | Some n => net.Contains n (netip.AsSlice x)
  | None => false
  end.

(** Two addresses denote the same IPv4 address. *)
Definition sameIP (a b : netip.Addr) : bool := netip.v4value a =? netip.v4value b.

Inductive Rule : Type :=
| WithinSubnet
| NotNetwork
| NotBroadcast
| NotRouter
| NotAllocated.

(** Address [x] breaks rule [r] in pool [pi], given the allocated
    addresses. *)
Definition breaks (pi : PoolInfo) (allocated : list netip.Addr)
           (x : netip.Addr) (r : Rule) : bool :=
  match r with
  | WithinSubnet => negb (within pi x)
  | NotNetwork => sameIP x (NetworkIPAddr pi)
  | NotBroadcast => sameIP x (BroadcastIPAddr pi)
  | NotRouter => netip.IsValid (RouterIPAddr pi) && sameIP x (RouterIPAddr pi)
  | NotAllocated => existsb (netip.Addr_eqb x) allocated
  end.

Definition boundRules : list Rule := [WithinSubnet; NotNetwork; NotBroadcast].

Definition serverRules : list Rule :=
  [WithinSubnet; NotNetwork; NotBroadcast; NotRouter; NotAllocated].

Definition rangeWording (r : Rule) : string :=
  match r with
  | WithinSubnet => " is not within subnet"
  | NotNetwork => " is the same as network ip"
  | NotBroadcast => " is the same as broadcast ip"
  | NotRouter => ""
  | NotAllocated => ""
  end.

Definition serverWording (r : Rule) : string :=
  match r with
  | WithinSubnet => " is not within subnet"
  | NotNetwork => " cannot be the same as network ip"
  | NotBroadcast => " cannot be the same as broadcast ip"
  | NotRouter => " cannot be the same as router ip"
  | NotAllocated => " is already allocated"
  end.

(** The rejection: the role, the offending address, the rule broken. *)
Definition violation (role : string) (wording : Rule -> string)
           (x : netip.Addr) (r : Rule) : error :=
  errorString (role ++ " ip " ++ netip.String x ++ wording r).

(** One bound of the range: skipped when missing, else the first of the
    three rules it breaks. *)
Definition checkBound (pi : PoolInfo) (role : string) (x : netip.Addr)
  : option error :=
  if netip.IsValid x then
    option_map (violation role rangeWording x) (find (breaks pi [] x) boundRules)
  else None.

(** Start bound first, then end bound; the first violation wins. *)
Definition rangeVerdict (pi : PoolInfo) : option error :=
  match checkBound pi "start" (StartIPAddr pi) with
  | Some e => Some e
  | None => checkBound pi "end" (EndIPAddr pi)
  end.

(** The server address: valid when absent, else the first of the five
    rules it breaks. *)
Definition serverVerdict (pi : PoolInfo) (allocated : list netip.Addr)
  : option error :=
  if netip.IsValid (ServerIPAddr pi) then
    option_map (violation "server" serverWording (ServerIPAddr pi))
               (find (breaks pi allocated (ServerIPAddr pi)) serverRules)
  else None.

(** Address [x] passes the three per-bound rules as the code tests them:
    each test returns, and none fails. *)
Definition passes (pi : PoolInfo) (x : netip.Addr) : Prop :=
  ippool.IPNet_Contains pi x = Normal true
  /\ ippool.As4_equal x (NetworkIPAddr pi) = Normal false
  /\ ippool.As4_equal x (BroadcastIPAddr pi) = Normal false.

(** The pool with another server address, and with its bounds exchanged. *)
Definition withServer (pi : PoolInfo) (s : netip.Addr) : PoolInfo :=
  {| IPNet := IPNet pi;
     NetworkIPAddr := NetworkIPAddr pi;
     BroadcastIPAddr := BroadcastIPAddr pi;
     StartIPAddr := StartIPAddr pi;
     EndIPAddr := EndIPAddr pi;
     ServerIPAddr := s;
     RouterIPAddr := RouterIPAddr pi |}.

Definition swapBounds (pi : PoolInfo) : PoolInfo :=
  {| IPNet := IPNet pi;
     NetworkIPAddr := NetworkIPAddr pi;
     BroadcastIPAddr := BroadcastIPAddr pi;
     StartIPAddr := EndIPAddr pi;
     EndIPAddr := StartIPAddr pi;
     ServerIPAddr := ServerIPAddr pi;
     RouterIPAddr := RouterIPAddr pi |}.

(** *** Deletion *)

(** A dependent named as namespace/name. *)
Definition fullName (d : VirtualMachineNetworkConfig.t) : string :=
  VirtualMachineNetworkConfig.Namespace d ++ "/" ++ VirtualMachineNetworkConfig.Name d.

(** The rejection of a deletion: every dependent, comma-joined, and the
    request to remove them first. *)
Definition dependentsMessage (deps : list VirtualMachineNetworkConfig.t) : string :=
  "it's still used by VirtualMachineNetworkConfig(s) "
  ++ String.concat ", " (map fullName deps)
  ++ ", which must be removed at first".

(** [sub] occurs in [s]. *)
Definition contains (s sub : string) : Prop :=
  exists pre post : string, s = pre ++ sub ++ post.

(** *** The network identifier *)

(** No "/" occurs in [s]. *)
Fixpoint noSlash (s : string) : bool :=
  match s with
  | EmptyString => true
  | String c s' => negb (Ascii.eqb c "/") && noSlash s'
  end.

(** The text before and after the last "/" of [s], when there is one. *)
Fixpoint cutLast (s : string) : option (string * string) :=
  match s with
  | EmptyString => None
  | String c s' =>
      match cutLast s' with
      | Some (a, b) => Some (String c a, b)
      | None => if Ascii.eqb c "/" then Some (EmptyString, s') else None
      end
  end.

(** The split at the last "/": an identifier without "/" has an empty
    namespace part. *)
Definition splitLast (s : string) : string * string :=
  match cutLast s with
  | Some p => p
  | None => ("", s)
  end.

(** One query of the registry, answered with exactly the error of the
    lookup. *)
Definition query {C : Type} (v : ippool.Validator C) (namespace name : string)
  : traced (option error) :=
  ([CallNadCacheGet namespace name],
   Normal (snd (ctlcniv1.Get (ippool.nadCache v) namespace name))).

(** The namespace queried for a namespace part. *)
Definition orDefault (namespace : string) : string :=
  if String.eqb namespace "" then "default" else namespace.

(** The network-existence check with the identifier split at its last
    "/". *)
Definition checkNAD_lastSlash {C : Type} (v : ippool.Validator C) (s : string)
  : traced (option error) :=
  let '(namespace, name) := splitLast s in
  query v (orDefault namespace) name.

(** *** The router address *)

(** The router address: valid when absent, else the first of the three
    rules it breaks; the message of the broadcast rule shows the broadcast
    address, the other two the router address. *)
Definition routerVerdict (pi : PoolInfo) : option error :=
  if netip.IsValid (RouterIPAddr pi) then
    match find (breaks pi [] (RouterIPAddr pi)) boundRules with
    | Some NotBroadcast =>
        Some (violation "router" rangeWording (BroadcastIPAddr pi) NotBroadcast)
    | Some r => Some (violation "router" rangeWording (RouterIPAddr pi) r)
    | None => None
    end
  else None.

(** The subnet is set and its address has four bytes. *)
Definition ipv4Subnet (pi : PoolInfo) : bool :=
  match IPNet pi with
  | Some n => Nat.eqb (List.length (net.IP n)) net.IPv4len
  | None => false
  end.

(** No white space at either end of [s]. *)
Definition trimmed (s : string) : bool :=
  match strings.cutAnyPrefix strings.spaces s,
        strings.cutAnyPrefix (map strings.rev strings.spaces) (strings.rev s) with
  | None, None => true
  | _, _ => false
  end.

(** The byte [c] does not occur in [s]. *)
Fixpoint without (c : ascii) (s : string) : bool :=
  match s with
  | EmptyString => true
  | String b s' => negb (Ascii.eqb b c) && without c s'
  end.

End Rules.

(** ** The scenario of the specification: 192.168.0.0/24 *)

Module Scenario.

Import util.

Definition subnet24 : net.IPNet :=
  {| net.IP := [192; 168; 0; 0]; net.Mask := [255; 255; 255; 0] |}.

Definition pool (start end_ server router : netip.Addr) : PoolInfo :=
  {| IPNet := Some subnet24;
     NetworkIPAddr := netip.AddrFrom4 192 168 0 0;
     BroadcastIPAddr := netip.AddrFrom4 192 168 0 255;
     StartIPAddr := start;
     EndIPAddr := end_;
     ServerIPAddr := server;
     RouterIPAddr := router |}.

Definition validPool : PoolInfo :=
  pool (netip.AddrFrom4 192 168 0 10) (netip.AddrFrom4 192 168 0 200)
       (netip.AddrFrom4 192 168 0 2) (netip.AddrFrom4 192 168 0 1).

(** The same pool with its range reversed. *)
Definition reversedPool : PoolInfo :=
  pool (netip.AddrFrom4 192 168 0 200) (netip.AddrFrom4 192 168 0 10)
       (netip.AddrFrom4 192 168 0 2) (netip.AddrFrom4 192 168 0 1).

(** Server and router on the same address. *)
Definition sharedPool : PoolInfo :=
  pool netip.zeroAddr netip.zeroAddr
       (netip.AddrFrom4 192 168 0 1) (netip.AddrFrom4 192 168 0 1).

(** The router on the broadcast address, written as an IPv4-mapped IPv6
    address. *)
Definition broadcastRouterPool : PoolInfo :=
  pool netip.zeroAddr netip.zeroAddr netip.zeroAddr (netip.Addr4In6 192 168 0 255).

(** No server address; the server address on the broadcast address. *)
Definition noServerPool : PoolInfo :=
  pool netip.zeroAddr netip.zeroAddr netip.zeroAddr (netip.AddrFrom4 192 168 0 1).

Definition broadcastServerPool : PoolInfo :=
  pool netip.zeroAddr netip.zeroAddr
       (netip.AddrFrom4 192 168 0 255) (netip.AddrFrom4 192 168 0 255).

(** A start bound outside the subnet, an end bound on the broadcast
    address. *)
Definition outsideStartPool : PoolInfo :=
  pool (netip.AddrFrom4 192 168 1 5) (netip.AddrFrom4 192 168 0 255)
       netip.zeroAddr netip.zeroAddr.

(** A registry holding the one network default/net-1 and, under the
    namespace a/b, the name c. *)
Definition registry : ctlcniv1.NetworkAttachmentDefinitionCache :=
  {| ctlcniv1.Get := fun namespace name =>
       if (String.eqb namespace "default" && String.eqb name "net-1")
          || (String.eqb namespace "a/b" && String.eqb name "c")
       then (Some {| ctlcniv1.Namespace := namespace; ctlcniv1.Name := name |}, None)
       else (None, Some (StatusError "NotFound"
                           ("network-attachment-definitions.k8s.cni.cncf.io "
                            ++ name ++ " not found"))) |}.

Definition validator : ippool.Validator unit :=
  {| ippool.nadCache := registry; ippool.vmnetcfgCache := tt |}.

(** A pool object of the namespace default, with one allocated address. *)
Definition ipPool (deletionTimestamp : option Z) : IPPool.t :=
  {| IPPool.Kind := "IPPool";
     IPPool.Namespace := "default";
     IPPool.Name := "pool-1";
     IPPool.DeletionTimestamp := deletionTimestamp;
     IPPool.Spec :=
       {| IPPool.IPv4Config := {| IPPool.CIDR := "192.168.0.0/24";
                            IPPool.ServerIP := "192.168.0.2";
                            IPPool.PoolStart := "192.168.0.10";
                            IPPool.PoolEnd := "192.168.0.200";
                            IPPool.Router := "192.168.0.1" |};
          IPPool.NetworkName := "default/net-1" |};
     IPPool.Status :=
       {| IPPool.IPv4 :=
            Some {| IPPool.Allocated := [("192.168.0.2", "52:54:00:00:00:01")] |} |} |}.

(** Collaborators for that object: a loader that yields the parsed
    scenario, one that fails, the accessor of its allocation map, and two
    dependency lookups. *)
Definition loader (_ : IPPool.t) : PoolInfo * option error := (validPool, None).

Definition failingLoader (_ : IPPool.t) : PoolInfo * option error :=
  (pool netip.zeroAddr netip.zeroAddr netip.zeroAddr netip.zeroAddr,
   Some (errorString "invalid CIDR address")).

Definition allocatedOf (_ : list (string * string)) : list netip.Addr :=
  [netip.AddrFrom4 192 168 0 2].

Definition consumers : list VirtualMachineNetworkConfig.t :=
  [ {| VirtualMachineNetworkConfig.Namespace := "default";
       VirtualMachineNetworkConfig.Name := "vm-1" |};
    {| VirtualMachineNetworkConfig.Namespace := "kube-system";
       VirtualMachineNetworkConfig.Name := "vm-2" |} ].

Definition whoUse (deps : list VirtualMachineNetworkConfig.t) (err : option error)
           (_ : unit) (_ : IPPool.t)
  : list VirtualMachineNetworkConfig.t * option error := (deps, err).

(** Only the subnet; the router on the network address. *)
Definition emptyPool : PoolInfo :=
  pool netip.zeroAddr netip.zeroAddr netip.zeroAddr netip.zeroAddr.

Definition networkRouterPool : PoolInfo :=
  pool netip.zeroAddr netip.zeroAddr netip.zeroAddr (netip.AddrFrom4 192 168 0 0).

(** A pool object whose network is not in the registry, and a loader that
    yields a description without a subnet. *)
Definition unknownNetworkPool : IPPool.t :=
  {| IPPool.Kind := "IPPool";
     IPPool.Namespace := "default";
     IPPool.Name := "pool-2";
     IPPool.DeletionTimestamp := None;
     IPPool.Spec :=
       {| IPPool.IPv4Config := {| IPPool.CIDR := "192.168.0.0/24";
                                  IPPool.ServerIP := "192.168.0.2";
                                  IPPool.PoolStart := "";
                                  IPPool.PoolEnd := "";
                                  IPPool.Router := "" |};
          IPPool.NetworkName := "default/net-9" |};
     IPPool.Status := {| IPPool.IPv4 := None |} |}.

Definition subnetlessLoader (_ : IPPool.t) : PoolInfo * option error :=
  ({| IPNet := None;
      NetworkIPAddr := netip.zeroAddr;
      BroadcastIPAddr := netip.zeroAddr;
      StartIPAddr := netip.AddrFrom4 192 168 0 10;
      EndIPAddr := netip.zeroAddr;
      ServerIPAddr := netip.zeroAddr;
      RouterIPAddr := netip.zeroAddr |}, None).

(** An accessor that finds another address allocated. *)
Definition otherAllocated (_ : list (string * string)) : list netip.Addr :=
  [netip.AddrFrom4 192 168 0 9].

(** The scenario with the IPv6 address 2001:db8::1 as router. *)
Definition ipv6Router : netip.Addr :=
  {| netip.addr := {| netip.hi := 0x20010db800000000; netip.lo := 1 |};
     netip.z := netip.z6noz |}.

Definition ipv6RouterPool : PoolInfo :=
  pool netip.zeroAddr netip.zeroAddr netip.zeroAddr ipv6Router.

(** A pool of the IPv6 family, 2001:db8::/64: every address that is set
    is an IPv6 address of the subnet, and no two of them are the same. *)
Definition subnet64 : net.IPNet :=
  {| net.IP := [0x20; 0x01; 0x0d; 0xb8; 0; 0; 0; 0; 0; 0; 0; 0; 0; 0; 0; 0];
     net.Mask := [255; 255; 255; 255; 255; 255; 255; 255; 0; 0; 0; 0; 0; 0; 0; 0] |}.

Definition ipv6 (low : Z) : netip.Addr :=
  {| netip.addr := {| netip.hi := 0x20010db800000000; netip.lo := low |};
     netip.z := netip.z6noz |}.

Definition ipv6Pool : PoolInfo :=
  {| IPNet := Some subnet64;
     NetworkIPAddr := ipv6 0;
     BroadcastIPAddr := ipv6 0xffffffffffffffff;
     StartIPAddr := ipv6 0x10;
     EndIPAddr := ipv6 0x20;
     ServerIPAddr := ipv6 2;
     RouterIPAddr := ipv6 1 |}.

End Scenario.

(** * Properties *)

(** ** Rendering of addresses, and the accepted scenario *)

Example string4_example :
  netip.String (netip.AddrFrom4 192 168 0 255) = "192.168.0.255".
Proof. reflexivity. Qed.

Example string4In6_example :
  netip.String (netip.Addr4In6 192 168 0 2) = "::ffff:192.168.0.2".
Proof. reflexivity. Qed.

Example string6_zone_example :
  netip.String {| netip.addr := {| netip.hi := 0x20010db800000000; netip.lo := 0x1 |};
                  netip.z := netip.z6 "eth0" |} = "2001:db8::1%eth0".
Proof. reflexivity. Qed.

Example string6_unspecified_example :
  netip.String {| netip.addr := {| netip.hi := 0; netip.lo := 0 |};
                  netip.z := netip.z6noz |} = "::".
Proof. reflexivity. Qed.

Example string6_longest_run_example :
  netip.String {| netip.addr := {| netip.hi := 0x0001000000000002; netip.lo := 0x3 |};
                  netip.z := netip.z6noz |} = "1:0:0:2::3".
Proof. reflexivity. Qed.

Example scenario_accepted :
  ippool.checkPoolRange Scenario.validPool = Normal None
  /\ ippool.checkServerIP Scenario.validPool [] = Normal None
  /\ ippool.checkRouter Scenario.validPool = Normal None.
Proof. repeat split; reflexivity. Qed.

(** Outside the IPv4 family the checks can panic: a present IPv6 router
    address reaches [As4] in the server check. *)
Example checkServerIP_outside_family :
  ippool.checkServerIP
    (Scenario.pool netip.zeroAddr netip.zeroAddr (netip.AddrFrom4 192 168 0 2)
                   {| netip.addr := {| netip.hi := 0x20010db800000000; netip.lo := 1 |};
                      netip.z := netip.z6noz |})
    []
  = Panic "As4 called on IPv6 address".
Proof. reflexivity. Qed.

(** The calls of an accepted creation, in order. *)
Example Create_trace :
  trace (ippool.Create Scenario.loader "%s %s/%s: %w" Scenario.validator
                       (Scenario.ipPool None))
  = [Infof "create ippool default/pool-1";
     CallLoadPool (Scenario.ipPool None);
     CallNadCacheGet "default" "net-1"].
Proof. reflexivity. Qed.

(** ** Bytes and addresses *)

Lemma bytes_eqb_refl (a : list Z) : bytes_eqb a a = true.
Proof.
  induction a as [|x a IH]; simpl; [reflexivity|].
  now rewrite Z.eqb_refl, IH.
Qed.

Lemma uint8_mod (x : Z) : uint8 x = x mod 256.
Proof. unfold uint8. change 255 with (Z.ones 8). now rewrite Z.land_ones by lia. Qed.

Lemma uint32_mod (x : Z) : uint32 x = x mod 4294967296.
Proof. unfold uint32. change 4294967295 with (Z.ones 32). now rewrite Z.land_ones by lia. Qed.

Lemma uint32_range (x : Z) : 0 <= uint32 x < 4294967296.
Proof. rewrite uint32_mod. apply Z.mod_pos_bound. lia. Qed.

Lemma cons4_inj (a b c d a' b' c' d' : Z) :
  [a; b; c; d] = [a'; b'; c'; d'] -> a = a' /\ b = b' /\ c = c' /\ d = d'.
Proof. intros H. inversion H. auto. Qed.

(** The four bytes of a 32-bit number determine it. *)
Lemma BEPutUint32_inj (a b : Z) :
  0 <= a < 4294967296 -> 0 <= b < 4294967296 ->
  netip.BEPutUint32 a = netip.BEPutUint32 b -> a = b.
Proof.
  intros Ha Hb H. unfold netip.BEPutUint32 in H.
  apply cons4_inj in H. destruct H as (H3 & H2 & H1 & H0).
  rewrite !uint8_mod, !Z.shiftr_div_pow2 in * by lia.
  change (2 ^ 24) with (256 * (256 * 256)) in *.
  change (2 ^ 16) with (256 * 256) in *.
  change (2 ^ 8) with 256 in *.
  rewrite <- !Z.div_div in * by lia.
  pose proof (Z.div_mod a 256 ltac:(lia)) as A0.
  pose proof (Z.div_mod (a / 256) 256 ltac:(lia)) as A1.
  pose proof (Z.div_mod (a / 256 / 256) 256 ltac:(lia)) as A2.
  pose proof (Z.div_mod b 256 ltac:(lia)) as B0.
  pose proof (Z.div_mod (b / 256) 256 ltac:(lia)) as B1.
  pose proof (Z.div_mod (b / 256 / 256) 256 ltac:(lia)) as B2.
  pose proof (Z.mod_pos_bound a 256 ltac:(lia)).
  pose proof (Z.mod_pos_bound (a / 256) 256 ltac:(lia)).
  pose proof (Z.mod_pos_bound (a / 256 / 256) 256 ltac:(lia)).
  pose proof (Z.mod_pos_bound b 256 ltac:(lia)).
  pose proof (Z.mod_pos_bound (b / 256) 256 ltac:(lia)).
  pose proof (Z.mod_pos_bound (b / 256 / 256) 256 ltac:(lia)).
  assert (A3 : 0 <= a / 256 / 256 / 256 < 256).
  { rewrite !Z.div_div by lia. split.
    - apply Z.div_pos; lia.
    - apply Z.div_lt_upper_bound; lia. }
  assert (B3 : 0 <= b / 256 / 256 / 256 < 256).
  { rewrite !Z.div_div by lia. split.
    - apply Z.div_pos; lia.
    - apply Z.div_lt_upper_bound; lia. }
  rewrite (Z.mod_small _ 256 A3), (Z.mod_small _ 256 B3) in H3.
  generalize dependent (a / 256 / 256 / 256).
  generalize dependent (b / 256 / 256 / 256).
  generalize dependent (a / 256 / 256 mod 256).
  generalize dependent (b / 256 / 256 mod 256).
  generalize dependent (a / 256 / 256).
  generalize dependent (b / 256 / 256).
  generalize dependent (a / 256 mod 256).
  generalize dependent (b / 256 mod 256).
  generalize dependent (a / 256).
  generalize dependent (b / 256).
  generalize dependent (a mod 256).
  generalize dependent (b mod 256).
  intros. lia.
Qed.

Lemma bytes_eqb_eq (a b : list Z) : bytes_eqb a b = true <-> a = b.
Proof.
  revert b. induction a as [|x a IH]; intros [|y b]; simpl; split;
    try discriminate; try reflexivity.
  - rewrite andb_true_iff, Z.eqb_eq, IH. now intros [-> ->].
  - intros E. injection E as -> ->. now rewrite Z.eqb_refl, bytes_eqb_refl.
Qed.

Lemma BEPutUint32_eqb (x y : Z) :
  bytes_eqb (netip.BEPutUint32 (uint32 x)) (netip.BEPutUint32 (uint32 y))
  = (uint32 x =? uint32 y).
Proof.
  destruct (Z.eqb_spec (uint32 x) (uint32 y)) as [E|N].
  - rewrite E. apply bytes_eqb_refl.
  - apply not_true_is_false. intro H. apply N.
    apply bytes_eqb_eq in H.
    apply BEPutUint32_inj; auto using uint32_range.
Qed.

Lemma As4_has4 (ip : netip.Addr) :
  Rules.has4 ip = true ->
  netip.As4 ip = Normal (netip.BEPutUint32 (netip.v4value ip)).
Proof.
  unfold Rules.has4, netip.As4, netip.Is4. intros H. now rewrite H.
Qed.

Lemma As4_equal_has4 (a b : netip.Addr) :
  Rules.has4 a = true -> Rules.has4 b = true ->
  ippool.As4_equal a b = Normal (Rules.sameIP a b).
Proof.
  intros Ha Hb. unfold ippool.As4_equal.
  rewrite (As4_has4 a Ha), (As4_has4 b Hb). cbn [bind].
  unfold netip.v4value, Rules.sameIP. now rewrite BEPutUint32_eqb.
Qed.

Lemma optional4_valid (ip : netip.Addr) :
  Rules.optional4 ip = true -> netip.IsValid ip = true -> Rules.has4 ip = true.
Proof.
  unfold Rules.optional4. intros H V. rewrite V in H. exact H.
Qed.

Lemma IPNet_Contains_within (pi : util.PoolInfo) (n : net.IPNet) (x : netip.Addr) :
  util.IPNet pi = Some n ->
  ippool.IPNet_Contains pi x = Normal (Rules.within pi x).
Proof.
  intros H. unfold ippool.IPNet_Contains, Rules.within. now rewrite H.
Qed.

(** What an IPv4 pool guarantees, field by field. *)
Lemma ipv4Pool_fields (pi : util.PoolInfo) :
  Rules.ipv4Pool pi = true ->
  (exists n, util.IPNet pi = Some n)
  /\ Rules.has4 (util.NetworkIPAddr pi) = true
  /\ Rules.has4 (util.BroadcastIPAddr pi) = true
  /\ Rules.optional4 (util.StartIPAddr pi) = true
  /\ Rules.optional4 (util.EndIPAddr pi) = true
  /\ Rules.optional4 (util.ServerIPAddr pi) = true
  /\ Rules.optional4 (util.RouterIPAddr pi) = true.
Proof.
  unfold Rules.ipv4Pool. rewrite !andb_true_iff.
  intros ((((((N & H1) & H2) & H3) & H4) & H5) & H6).
  repeat split; auto.
  destruct (util.IPNet pi) as [n|]; [now exists n | discriminate].
Qed.

(** [As4] returns exactly on the addresses that have a 4-byte form. *)
Lemma As4_panics (ip : netip.Addr) :
  Rules.has4 ip = false -> exists msg, netip.As4 ip = Panic msg.
Proof.
  unfold Rules.has4, netip.As4, netip.Is4. intros H. rewrite H.
  destruct (netip.addrDetail_eqb (netip.z ip) netip.z0); eauto.
Qed.

(** The comparison of two 4-byte forms panics, or tells whether the two
    addresses are the same IPv4 address. *)
Lemma As4_equal_cases (a b : netip.Addr) :
  (exists msg, ippool.As4_equal a b = Panic msg)
  \/ ippool.As4_equal a b = Normal (Rules.sameIP a b).
Proof.
  destruct (Rules.has4 a) eqn:Ha.
  - destruct (Rules.has4 b) eqn:Hb.
    + right. now apply As4_equal_has4.
    + left. destruct (As4_panics b Hb) as [msg E]. exists msg.
      unfold ippool.As4_equal. rewrite (As4_has4 a Ha), E. reflexivity.
  - left. destruct (As4_panics a Ha) as [msg E]. exists msg.
    unfold ippool.As4_equal. rewrite E. reflexivity.
Qed.

Lemma rangeFamily_fields (pi : util.PoolInfo) :
  Rules.rangeFamily pi = true ->
  (exists n, util.IPNet pi = Some n)
  /\ Rules.has4 (util.NetworkIPAddr pi) = true
  /\ Rules.has4 (util.BroadcastIPAddr pi) = true
  /\ Rules.optional4 (util.StartIPAddr pi) = true
  /\ Rules.optional4 (util.EndIPAddr pi) = true.
Proof.
  unfold Rules.rangeFamily. rewrite !andb_true_iff.
  intros ((((N & H1) & H2) & H3) & H4).
  repeat split; auto.
  destruct (util.IPNet pi) as [n|]; [now exists n | discriminate].
Qed.

Lemma serverFamily_fields (pi : util.PoolInfo) :
  Rules.serverFamily pi = true ->
  (exists n, util.IPNet pi = Some n)
  /\ Rules.has4 (util.NetworkIPAddr pi) = true
  /\ Rules.has4 (util.BroadcastIPAddr pi) = true
  /\ Rules.optional4 (util.ServerIPAddr pi) = true
  /\ Rules.optional4 (util.RouterIPAddr pi) = true.
Proof.
  unfold Rules.serverFamily. rewrite !andb_true_iff.
  intros ((((N & H1) & H2) & H3) & H4).
  repeat split; auto.
  destruct (util.IPNet pi) as [n|]; [now exists n | discriminate].
Qed.

(** One bound of the range, as the code checks it after the validity
    test: the three rules in order, [k] being what runs when none fails. *)
Lemma bound_rules (pi : util.PoolInfo) (n : net.IPNet) (role : string) (x : netip.Addr)
      (k : outcome (option error)) :
  util.IPNet pi = Some n ->
  Rules.has4 (util.NetworkIPAddr pi) = true ->
  Rules.has4 (util.BroadcastIPAddr pi) = true ->
  Rules.has4 x = true ->
  (c <- ippool.IPNet_Contains pi x ;;
   if negb c then
     Normal (Some (errorString (role ++ " ip " ++ netip.String x ++ " is not within subnet")))
   else
     e <- ippool.As4_equal x (util.NetworkIPAddr pi) ;;
     if e then
       Normal (Some (errorString (role ++ " ip " ++ netip.String x ++ " is the same as network ip")))
     else
       e <- ippool.As4_equal x (util.BroadcastIPAddr pi) ;;
       if e then
         Normal (Some (errorString (role ++ " ip " ++ netip.String x ++ " is the same as broadcast ip")))
       else k)%go
  = match find (Rules.breaks pi [] x) Rules.boundRules with
    | Some r => Normal (Some (Rules.violation role Rules.rangeWording x r))
    | None => k
    end.
Proof.
  intros N Hn Hb X.
  rewrite (IPNet_Contains_within pi n x N).
  rewrite !As4_equal_has4 by assumption.
  unfold Rules.boundRules, Rules.violation. cbn [bind find Rules.breaks].
  destruct (Rules.within pi x); cbn [negb]; [|reflexivity].
  destruct (Rules.sameIP x (util.NetworkIPAddr pi)); [reflexivity|].
  destruct (Rules.sameIP x (util.BroadcastIPAddr pi)); reflexivity.
Qed.

(** The same for any pool: the three tests panic, or they give the first
    rule broken. *)
Lemma bound_cases (pi : util.PoolInfo) (role : string) (x : netip.Addr)
      (k : outcome (option error)) :
  let tests :=
    (c <- ippool.IPNet_Contains pi x ;;
     if negb c then
       Normal (Some (errorString (role ++ " ip " ++ netip.String x ++ " is not within subnet")))
     else
       e <- ippool.As4_equal x (util.NetworkIPAddr pi) ;;
       if e then
         Normal (Some (errorString (role ++ " ip " ++ netip.String x ++ " is the same as network ip")))
       else
         e <- ippool.As4_equal x (util.BroadcastIPAddr pi) ;;
         if e then
           Normal (Some (errorString (role ++ " ip " ++ netip.String x ++ " is the same as broadcast ip")))
         else k)%go in
  (exists msg, tests = Panic msg)
  \/ tests = match find (Rules.breaks pi [] x) Rules.boundRules with
             | Some r => Normal (Some (Rules.violation role Rules.rangeWording x r))
             | None => k
             end.
Proof.
  cbv zeta.
  destruct (util.IPNet pi) as [n|] eqn:N.
  2: { left. unfold ippool.IPNet_Contains. rewrite N. cbn [bind]. eauto. }
  rewrite (IPNet_Contains_within pi n x N).
  unfold Rules.boundRules, Rules.violation. cbn [bind find Rules.breaks].
  destruct (Rules.within pi x); cbn [negb]; [|right; reflexivity].
  destruct (As4_equal_cases x (util.NetworkIPAddr pi)) as [[msg E]|E];
    rewrite E; cbn [bind]; [left; eauto|].
  destruct (Rules.sameIP x (util.NetworkIPAddr pi)); [right; reflexivity|].
  destruct (As4_equal_cases x (util.BroadcastIPAddr pi)) as [[msg E']|E'];
    rewrite E'; cbn [bind]; [left; eauto|].
  destruct (Rules.sameIP x (util.BroadcastIPAddr pi)); right; reflexivity.
Qed.

(** ** The range check *)

Lemma checkPoolRange_end_bound (pi : util.PoolInfo) :
  Rules.rangeFamily pi = true ->
  ippool.checkPoolRange_end pi
  = Normal (Rules.checkBound pi "end" (util.EndIPAddr pi)).
Proof.
  intros W. destruct (rangeFamily_fields pi W) as ([n N] & Hn & Hb & _ & He).
  unfold ippool.checkPoolRange_end, Rules.checkBound.
  destruct (netip.IsValid (util.EndIPAddr pi)) eqn:V; [|reflexivity].
  etransitivity.
  - exact (bound_rules pi n "end" _ (Normal None) N Hn Hb (optional4_valid _ He V)).
  - destruct (find _ _); reflexivity.
Qed.

Lemma checkPoolRange_end_cases (pi : util.PoolInfo) :
  (exists msg, ippool.checkPoolRange_end pi = Panic msg)
  \/ ippool.checkPoolRange_end pi
     = Normal (Rules.checkBound pi "end" (util.EndIPAddr pi)).
Proof.
  unfold ippool.checkPoolRange_end, Rules.checkBound.
  destruct (netip.IsValid (util.EndIPAddr pi)); [|right; reflexivity].
  destruct (bound_cases pi "end" (util.EndIPAddr pi) (Normal None)) as [P|E].
  - left. exact P.
  - right. etransitivity; [exact E|]. destruct (find _ _); reflexivity.
Qed.

Lemma checkPoolRange_returns (pi : util.PoolInfo) :
  Rules.rangeFamily pi = true ->
  ippool.checkPoolRange pi = Normal (Rules.rangeVerdict pi).
Proof.
  intros W. destruct (rangeFamily_fields pi W) as ([n N] & Hn & Hb & Hs & _).
  unfold ippool.checkPoolRange, Rules.rangeVerdict.
  unfold Rules.checkBound at 1.
  destruct (netip.IsValid (util.StartIPAddr pi)) eqn:V.
  - etransitivity.
    + exact (bound_rules pi n "start" _ (ippool.checkPoolRange_end pi) N Hn Hb
                         (optional4_valid _ Hs V)).
    + destruct (find _ _); [reflexivity|].
      now apply checkPoolRange_end_bound.
  - now apply checkPoolRange_end_bound.
Qed.

(** C1. For every pool description, [checkPoolRange] panics or returns the
    first violation met when a present start bound and then a present end
    bound are each held against the three rules in order (within the
    subnet, not the network address, not the broadcast address); the error
    names the role, the offending address and the rule broken; a missing
    bound is skipped, and with no rule broken there is no error. It
    returns whenever the subnet is set and the network address, the
    broadcast address and each bound that is set have a 4-byte form. *)
Theorem checkPoolRange_first_violation (pi : util.PoolInfo) :
  ((exists msg, ippool.checkPoolRange pi = Panic msg)
   \/ ippool.checkPoolRange pi = Normal (Rules.rangeVerdict pi))
  /\ (Rules.rangeFamily pi = true ->
      ippool.checkPoolRange pi = Normal (Rules.rangeVerdict pi)).
Proof.
  split; [|apply checkPoolRange_returns].
  unfold ippool.checkPoolRange, Rules.rangeVerdict.
  unfold Rules.checkBound at 1.
  destruct (netip.IsValid (util.StartIPAddr pi)).
  - destruct (bound_cases pi "start" (util.StartIPAddr pi)
                          (ippool.checkPoolRange_end pi)) as [P|E].
    + left. exact P.
    + cbv zeta in E.
      destruct (find (Rules.breaks pi [] (util.StartIPAddr pi)) Rules.boundRules).
      * right. exact E.
      * destruct (checkPoolRange_end_cases pi) as [[msg P]|E'].
        -- left. exists msg. etransitivity; [exact E | exact P].
        -- right. etransitivity; [exact E | exact E'].
  - apply checkPoolRange_end_cases.
Qed.

Lemma checkPoolRange_first_violation_witness :
  Rules.rangeFamily Scenario.outsideStartPool = true
  /\ ippool.checkPoolRange Scenario.outsideStartPool
     = Normal (Some (errorString "start ip 192.168.1.5 is not within subnet")).
Proof.
  split; [reflexivity|].
  exact (proj2 (checkPoolRange_first_violation Scenario.outsideStartPool) eq_refl).
Defined.

(** C1, as stated for every pool description, fails: in the IPv6 pool
    2001:db8::/64 the bounds 2001:db8::10 and 2001:db8::20 are within the
    subnet and differ from the network and the broadcast address, so no
    rule is broken; the check does not return, it panics in [As4]. *)
Lemma checkPoolRange_ipv6_counterexample :
  Rules.rangeVerdict Scenario.ipv6Pool = None
  /\ ippool.checkPoolRange Scenario.ipv6Pool = Panic "As4 called on IPv6 address"
  /\ ippool.checkPoolRange Scenario.ipv6Pool
     <> Normal (Rules.rangeVerdict Scenario.ipv6Pool).
Proof.
  split; [reflexivity|]. split; [reflexivity|]. discriminate.
Qed.

(** ** The server-address check *)

Lemma append_inj_l (s a b : string) : s ++ a = s ++ b -> a = b.
Proof.
  induction s as [|c s IH]; simpl; intros H; [exact H|].
  injection H as H. now apply IH.
Qed.

Lemma checkServerIP_allocated_existsb (pi : util.PoolInfo) (allocated : list netip.Addr) :
  ippool.checkServerIP_allocated pi allocated
  = if existsb (netip.Addr_eqb (util.ServerIPAddr pi)) allocated
    then Some (Rules.violation "server" Rules.serverWording
                               (util.ServerIPAddr pi) Rules.NotAllocated)
    else None.
Proof.
  induction allocated as [|ip rest IH]; simpl; [reflexivity|].
  destruct (netip.Addr_eqb (util.ServerIPAddr pi) ip); simpl; [reflexivity|].
  exact IH.
Qed.

Lemma serverWording_inj (r1 r2 : Rules.Rule) :
  Rules.serverWording r1 = Rules.serverWording r2 -> r1 = r2.
Proof. destruct r1, r2; simpl; intros H; try reflexivity; discriminate H. Qed.

Lemma checkServerIP_verdict (pi : util.PoolInfo) (allocated : list netip.Addr) :
  Rules.serverFamily pi = true ->
  ippool.checkServerIP pi allocated = Normal (Rules.serverVerdict pi allocated).
Proof.
  intros W.
  destruct (serverFamily_fields pi W) as ([n N] & Hn & Hb & Hs & Hr).
  unfold ippool.checkServerIP, Rules.serverVerdict.
  destruct (netip.IsValid (util.ServerIPAddr pi)) eqn:V; cbn [negb]; [|reflexivity].
  pose proof (optional4_valid _ Hs V) as S4.
  rewrite (IPNet_Contains_within pi n _ N).
  rewrite !(As4_equal_has4 (util.ServerIPAddr pi)) by assumption.
  rewrite checkServerIP_allocated_existsb.
  unfold Rules.serverRules. cbn [bind find Rules.breaks].
  destruct (Rules.within pi (util.ServerIPAddr pi)); cbn [negb]; [|reflexivity].
  destruct (Rules.sameIP _ (util.NetworkIPAddr pi)); [reflexivity|].
  destruct (Rules.sameIP _ (util.BroadcastIPAddr pi)); [reflexivity|].
  destruct (netip.IsValid (util.RouterIPAddr pi)) eqn:VR; cbn [andb bind].
  - rewrite (As4_equal_has4 _ _ S4 (optional4_valid _ Hr VR)). cbn [bind].
    destruct (Rules.sameIP _ (util.RouterIPAddr pi)); [reflexivity|].
    destruct (existsb _ allocated); reflexivity.
  - destruct (existsb _ allocated); reflexivity.
Qed.

(** For any pool the server check panics, or it gives the first rule
    broken. *)
Lemma checkServerIP_cases (pi : util.PoolInfo) (allocated : list netip.Addr) :
  (exists msg, ippool.checkServerIP pi allocated = Panic msg)
  \/ ippool.checkServerIP pi allocated = Normal (Rules.serverVerdict pi allocated).
Proof.
  unfold ippool.checkServerIP, Rules.serverVerdict.
  destruct (netip.IsValid (util.ServerIPAddr pi)); cbn [negb]; [|right; reflexivity].
  destruct (util.IPNet pi) as [n|] eqn:N.
  2: { left. unfold ippool.IPNet_Contains. rewrite N. cbn [bind]. eauto. }
  rewrite (IPNet_Contains_within pi n _ N).
  rewrite checkServerIP_allocated_existsb.
  unfold Rules.serverRules. cbn [bind find Rules.breaks].
  destruct (Rules.within pi (util.ServerIPAddr pi)); cbn [negb]; [|right; reflexivity].
  destruct (As4_equal_cases (util.ServerIPAddr pi) (util.NetworkIPAddr pi))
    as [[msg E]|E]; rewrite E; cbn [bind]; [left; eauto|].
  destruct (Rules.sameIP _ (util.NetworkIPAddr pi)); [right; reflexivity|].
  destruct (As4_equal_cases (util.ServerIPAddr pi) (util.BroadcastIPAddr pi))
    as [[msg E']|E']; rewrite E'; cbn [bind]; [left; eauto|].
  destruct (Rules.sameIP _ (util.BroadcastIPAddr pi)); [right; reflexivity|].
  destruct (netip.IsValid (util.RouterIPAddr pi)); cbn [andb bind].
  - destruct (As4_equal_cases (util.ServerIPAddr pi) (util.RouterIPAddr pi))
      as [[msg R]|R]; rewrite R; cbn [bind]; [left; eauto|].
    destruct (Rules.sameIP _ (util.RouterIPAddr pi)); [right; reflexivity|].
    destruct (existsb _ allocated); right; reflexivity.
  - destruct (existsb _ allocated); right; reflexivity.
Qed.

(** C2. For every pool description, [checkServerIP] returns no error when
    the server address is absent; when it is present the check panics or
    returns the rejection of the first rule broken among: within the
    subnet, not the network address, not the broadcast address, not a
    present router address, not one of the allocated addresses supplied.
    It returns whenever the subnet is set and the network address, the
    broadcast address, the server address and a present router address
    have a 4-byte form; and the five rejections of one server address are
    worded differently from one another. *)
Theorem checkServerIP_rules (pi : util.PoolInfo) (allocated : list netip.Addr) :
  (netip.IsValid (util.ServerIPAddr pi) = false ->
   ippool.checkServerIP pi allocated = Normal None)
  /\ ((exists msg, ippool.checkServerIP pi allocated = Panic msg)
      \/ ippool.checkServerIP pi allocated = Normal (Rules.serverVerdict pi allocated))
  /\ (Rules.serverFamily pi = true ->
      ippool.checkServerIP pi allocated = Normal (Rules.serverVerdict pi allocated))
  /\ (forall r1 r2 : Rules.Rule,
         Rules.violation "server" Rules.serverWording (util.ServerIPAddr pi) r1
         = Rules.violation "server" Rules.serverWording (util.ServerIPAddr pi) r2 ->
         r1 = r2).
Proof.
  split; [|split; [|split]].
  - intros V. unfold ippool.checkServerIP. now rewrite V.
  - apply checkServerIP_cases.
  - apply checkServerIP_verdict.
  - intros r1 r2 H. unfold Rules.violation in H. injection H as H.
    apply serverWording_inj.
    now repeat apply append_inj_l in H.
Qed.

Lemma checkServerIP_rules_witness :
  (netip.IsValid (util.ServerIPAddr Scenario.noServerPool) = false
   /\ ippool.checkServerIP Scenario.noServerPool [netip.AddrFrom4 192 168 0 7]
      = Normal None)
  /\ (Rules.serverFamily Scenario.broadcastServerPool = true
      /\ ippool.checkServerIP Scenario.broadcastServerPool
                              [netip.AddrFrom4 192 168 0 255]
         = Normal (Some (errorString
                           "server ip 192.168.0.255 cannot be the same as broadcast ip"))).
Proof.
  split; (split; [reflexivity|]).
  - exact (proj1 (checkServerIP_rules Scenario.noServerPool
                                      [netip.AddrFrom4 192 168 0 7]) eq_refl).
  - exact (proj1 (proj2 (proj2 (checkServerIP_rules Scenario.broadcastServerPool
                                                    [netip.AddrFrom4 192 168 0 255])))
                 eq_refl).
Defined.

(** C2, as stated for every pool description, fails: in the IPv6 pool
    2001:db8::/64 the server address 2001:db8::2 is within the subnet and
    differs from the network, the broadcast and the router address, and
    nothing is allocated, so no rule is broken; the check does not return,
    it panics in [As4]. So it does on the IPv4 subnet 192.168.0.0/24 with
    the server address 192.168.0.2 and the router address 2001:db8::1. *)
Lemma checkServerIP_ipv6_counterexample :
  (Rules.serverVerdict Scenario.ipv6Pool [] = None
   /\ ippool.checkServerIP Scenario.ipv6Pool [] = Panic "As4 called on IPv6 address"
   /\ ippool.checkServerIP Scenario.ipv6Pool []
      <> Normal (Rules.serverVerdict Scenario.ipv6Pool []))
  /\ (Rules.serverVerdict
        (Scenario.pool netip.zeroAddr netip.zeroAddr (netip.AddrFrom4 192 168 0 2)
                       Scenario.ipv6Router) [] = None
      /\ ippool.checkServerIP
           (Scenario.pool netip.zeroAddr netip.zeroAddr (netip.AddrFrom4 192 168 0 2)
                          Scenario.ipv6Router) []
         = Panic "As4 called on IPv6 address").
Proof.
  split; [split; [reflexivity|]; split; [reflexivity|]; discriminate|].
  split; reflexivity.
Qed.

(** ** Server and router *)

Lemma As4_equal_self (a b : netip.Addr) (v : bool) :
  ippool.As4_equal a b = Normal v -> ippool.As4_equal a a = Normal true.
Proof.
  unfold ippool.As4_equal. destruct (netip.As4 a) as [x|msg]; cbn [bind].
  - intros _. now rewrite bytes_eqb_refl.
  - discriminate.
Qed.

(** C5. For every pool description in which the server and the router
    address are both present and equal, and the server address passes the
    subnet, network and broadcast rules, [checkServerIP] rejects with the
    same-as-router reason; [checkRouter] never reads the server address:
    its verdict is the same whatever the server address is. *)
Theorem server_router_asymmetry (pi : util.PoolInfo) (allocated : list netip.Addr) :
  (netip.IsValid (util.ServerIPAddr pi) = true ->
   netip.IsValid (util.RouterIPAddr pi) = true ->
   util.ServerIPAddr pi = util.RouterIPAddr pi ->
   Rules.passes pi (util.ServerIPAddr pi) ->
   ippool.checkServerIP pi allocated
   = Normal (Some (errorString ("server ip " ++ netip.String (util.ServerIPAddr pi)
                                ++ " cannot be the same as router ip"))))
  /\ (forall s : netip.Addr,
         ippool.checkRouter (Rules.withServer pi s) = ippool.checkRouter pi).
Proof.
  split.
  - intros VS VR E (C & N & B).
    unfold ippool.checkServerIP. rewrite VS, C, N, B, VR. cbn [negb bind].
    rewrite <- E, (As4_equal_self _ _ _ N). reflexivity.
  - intros s. reflexivity.
Qed.

Lemma server_router_asymmetry_witness :
  (netip.IsValid (util.ServerIPAddr Scenario.sharedPool) = true
   /\ netip.IsValid (util.RouterIPAddr Scenario.sharedPool) = true
   /\ util.ServerIPAddr Scenario.sharedPool = util.RouterIPAddr Scenario.sharedPool
   /\ Rules.passes Scenario.sharedPool (util.ServerIPAddr Scenario.sharedPool))
  /\ ippool.checkServerIP Scenario.sharedPool []
     = Normal (Some (errorString "server ip 192.168.0.1 cannot be the same as router ip"))
  /\ ippool.checkRouter Scenario.sharedPool = Normal None.
Proof.
  assert (P : Rules.passes Scenario.sharedPool (util.ServerIPAddr Scenario.sharedPool))
    by (repeat split; reflexivity).
  split; [repeat split; reflexivity|]. split; [|reflexivity].
  exact (proj1 (server_router_asymmetry Scenario.sharedPool [])
               eq_refl eq_refl eq_refl P).
Defined.

(** C6. For every pool description whose router address is present, lies
    within the subnet, differs from the network address and equals the
    broadcast address (as the code compares them, by their 4-byte forms),
    [checkRouter] rejects, and the address in the message is the
    broadcast address, not the router address: "router ip <broadcast> is
    the same as broadcast ip". *)
Theorem checkRouter_broadcast_message (pi : util.PoolInfo) :
  netip.IsValid (util.RouterIPAddr pi) = true ->
  ippool.IPNet_Contains pi (util.RouterIPAddr pi) = Normal true ->
  ippool.As4_equal (util.RouterIPAddr pi) (util.NetworkIPAddr pi) = Normal false ->
  ippool.As4_equal (util.RouterIPAddr pi) (util.BroadcastIPAddr pi) = Normal true ->
  ippool.checkRouter pi
  = Normal (Some (errorString ("router ip " ++ netip.String (util.BroadcastIPAddr pi)
                               ++ " is the same as broadcast ip"))).
Proof.
  intros V C N B. unfold ippool.checkRouter. rewrite V, C, N, B. reflexivity.
Qed.

Lemma checkRouter_broadcast_message_witness :
  netip.String (util.RouterIPAddr Scenario.broadcastRouterPool) = "::ffff:192.168.0.255"
  /\ ippool.checkRouter Scenario.broadcastRouterPool
     = Normal (Some (errorString "router ip 192.168.0.255 is the same as broadcast ip")).
Proof.
  split; [reflexivity|].
  exact (checkRouter_broadcast_message Scenario.broadcastRouterPool
                                       eq_refl eq_refl eq_refl eq_refl).
Defined.

(** ** Order of the bounds *)

Lemma checkPoolRange_passes (pi : util.PoolInfo) :
  netip.IsValid (util.StartIPAddr pi) = true ->
  netip.IsValid (util.EndIPAddr pi) = true ->
  Rules.passes pi (util.StartIPAddr pi) ->
  Rules.passes pi (util.EndIPAddr pi) ->
  ippool.checkPoolRange pi = Normal None.
Proof.
  intros VS VE (C1 & N1 & B1) (C2 & N2 & B2).
  unfold ippool.checkPoolRange, ippool.checkPoolRange_end.
  rewrite VS, C1, N1, B1, VE, C2, N2, B2. reflexivity.
Qed.

(** C9. The range check relates the two bounds in no way: for every pool
    description whose start and end address are both present and each
    pass the three per-bound rules, [checkPoolRange] accepts, and it
    accepts as well the pool with the two bounds exchanged; so a range
    whose start is numerically above its end is accepted. *)
Theorem checkPoolRange_no_ordering (pi : util.PoolInfo) :
  netip.IsValid (util.StartIPAddr pi) = true ->
  netip.IsValid (util.EndIPAddr pi) = true ->
  Rules.passes pi (util.StartIPAddr pi) ->
  Rules.passes pi (util.EndIPAddr pi) ->
  ippool.checkPoolRange pi = Normal None
  /\ ippool.checkPoolRange (Rules.swapBounds pi) = Normal None.
Proof.
  intros VS VE PS PE. split.
  - now apply checkPoolRange_passes.
  - apply checkPoolRange_passes; assumption.
Qed.

Lemma checkPoolRange_no_ordering_witness :
  netip.v4value (util.EndIPAddr Scenario.reversedPool)
  < netip.v4value (util.StartIPAddr Scenario.reversedPool)
  /\ ippool.checkPoolRange Scenario.reversedPool = Normal None.
Proof.
  split; [reflexivity|].
  assert (PS : Rules.passes Scenario.reversedPool (util.StartIPAddr Scenario.reversedPool))
    by (repeat split; reflexivity).
  assert (PE : Rules.passes Scenario.reversedPool (util.EndIPAddr Scenario.reversedPool))
    by (repeat split; reflexivity).
  exact (proj1 (checkPoolRange_no_ordering Scenario.reversedPool eq_refl eq_refl PS PE)).
Defined.

(** ** Allocated addresses and representation *)

Lemma Addr_eqb_4_4In6 (a ip : netip.Addr) :
  netip.Is4 a = true -> netip.Is4In6 ip = true -> netip.Addr_eqb a ip = false.
Proof.
  unfold netip.Is4, netip.Is4In6, netip.Is6, netip.Addr_eqb.
  rewrite !andb_true_iff. intros A (((_ & N) & _) & _).
  destruct (netip.z a), (netip.z ip); cbn [netip.addrDetail_eqb negb] in *;
    try discriminate; apply andb_false_r.
Qed.

(** C10. The already-allocated rule compares whole addresses, the
    collision rules compare 4-byte forms: for every pool description
    whose server address is an IPv4 address and every allocated address
    that is the IPv4-mapped IPv6 form of the same four bytes, the loop
    over the allocated addresses finds no match and [checkServerIP]
    answers as it does with no allocated address at all, although the
    4-byte comparison of the two addresses holds. *)
Theorem allocated_rule_misses_mapped (pi : util.PoolInfo) (ip : netip.Addr) :
  netip.Is4 (util.ServerIPAddr pi) = true ->
  netip.Is4In6 ip = true ->
  netip.As4 ip = netip.As4 (util.ServerIPAddr pi) ->
  ippool.checkServerIP_allocated pi [ip] = None
  /\ ippool.checkServerIP pi [ip] = ippool.checkServerIP pi []
  /\ ippool.As4_equal (util.ServerIPAddr pi) ip = Normal true.
Proof.
  intros S4 M E.
  assert (L : ippool.checkServerIP_allocated pi [ip] = None).
  { simpl. now rewrite (Addr_eqb_4_4In6 _ _ S4 M). }
  split; [exact L|]. split.
  - unfold ippool.checkServerIP. now rewrite L.
  - unfold ippool.As4_equal. rewrite E.
    unfold netip.As4. unfold netip.Is4 in S4. rewrite S4. cbn [orb bind].
    now rewrite bytes_eqb_refl.
Qed.

Lemma allocated_rule_misses_mapped_witness :
  netip.String (netip.Addr4In6 192 168 0 2) = "::ffff:192.168.0.2"
  /\ ippool.checkServerIP Scenario.validPool [netip.Addr4In6 192 168 0 2] = Normal None
  /\ ippool.checkServerIP Scenario.validPool [netip.AddrFrom4 192 168 0 2]
     = Normal (Some (errorString "server ip 192.168.0.2 is already allocated")).
Proof.
  split; [reflexivity|]. split; [|reflexivity].
  exact (proj1 (proj2 (allocated_rule_misses_mapped
                         Scenario.validPool (netip.Addr4In6 192 168 0 2)
                         eq_refl eq_refl eq_refl))).
Defined.

(** ** Entry points *)

Lemma verdict_tbind {A B : Type} (c : traced A) (k : A -> traced B) :
  verdict (tbind c k) = bind (verdict c) (fun a => verdict (k a)).
Proof.
  destruct c as [t [a|msg]]; cbn [tbind verdict snd bind]; [|reflexivity].
  destruct (k a). reflexivity.
Qed.

Lemma verdict_emit (e : event) : verdict (emit e) = Normal tt.
Proof. reflexivity. Qed.

Lemma verdict_call {A : Type} (e : event) (r : A) : verdict (call e r) = Normal r.
Proof. reflexivity. Qed.

Lemma verdict_lift {A : Type} (c : outcome A) : verdict (lift c) = c.
Proof. reflexivity. Qed.

Lemma verdict_tret {A : Type} (a : A) : verdict (tret a) = Normal a.
Proof. reflexivity. Qed.

Create Rewrite HintDb verdict.
#[export] Hint Rewrite @verdict_tbind @verdict_emit @verdict_call @verdict_lift
  @verdict_tret : verdict.

(** One step of an entry point: the verdict of a bind from the verdict of
    its first call. *)
Ltac verdict_step := repeat progress (autorewrite with verdict; cbn [bind]).

Lemma Addr_eqb_refl (ip : netip.Addr) : netip.Addr_eqb ip ip = true.
Proof.
  unfold netip.Addr_eqb. rewrite !Z.eqb_refl. cbn [andb].
  destruct (netip.z ip); cbn [netip.addrDetail_eqb]; auto using String.eqb_refl.
Qed.

(** A present server address that is accepted without allocated
    addresses is rejected as soon as it is one of them. *)
Lemma checkServerIP_allocated_member (pi : util.PoolInfo) (allocated : list netip.Addr) :
  netip.IsValid (util.ServerIPAddr pi) = true ->
  ippool.checkServerIP pi [] = Normal None ->
  In (util.ServerIPAddr pi) allocated ->
  ippool.checkServerIP pi allocated
  = Normal (Some (errorString ("server ip " ++ netip.String (util.ServerIPAddr pi)
                               ++ " is already allocated"))).
Proof.
  intros V H M.
  assert (E : existsb (netip.Addr_eqb (util.ServerIPAddr pi)) allocated = true).
  { apply existsb_exists. exists (util.ServerIPAddr pi). split; [exact M|].
    apply Addr_eqb_refl. }
  unfold ippool.checkServerIP in *. rewrite V in *. cbn [negb] in *.
  destruct (ippool.IPNet_Contains pi (util.ServerIPAddr pi)) as [[|]|];
    cbn [bind negb] in *; try discriminate.
  destruct (ippool.As4_equal _ (util.NetworkIPAddr pi)) as [[|]|];
    cbn [bind] in *; try discriminate.
  destruct (ippool.As4_equal _ (util.BroadcastIPAddr pi)) as [[|]|];
    cbn [bind] in *; try discriminate.
  destruct (if netip.IsValid (util.RouterIPAddr pi)
            then ippool.As4_equal (util.ServerIPAddr pi) (util.RouterIPAddr pi)
            else Normal false) as [[|]|];
    cbn [bind] in *; try discriminate.
  rewrite checkServerIP_allocated_existsb, E. reflexivity.
Qed.

Lemma append_assoc (a b c : string) : (a ++ b) ++ c = a ++ b ++ c.
Proof. induction a as [|x a IH]; simpl; [reflexivity | now rewrite IH]. Qed.

Lemma append_nil_r (a : string) : a ++ "" = a.
Proof. induction a as [|x a IH]; simpl; [reflexivity | now rewrite IH]. Qed.

Lemma contains_append (s sub a b : string) :
  Rules.contains s sub -> Rules.contains (a ++ s ++ b) sub.
Proof.
  intros (pre & post & ->). exists (a ++ pre), (post ++ b).
  now rewrite !append_assoc.
Qed.

(** A joined list shows each of its elements. *)
Lemma concat_contains (sep x : string) (l : list string) :
  In x l -> Rules.contains (String.concat sep l) x.
Proof.
  induction l as [|y l IH]; [contradiction|].
  intros [->|M].
  - destruct l as [|y' l]; cbn [String.concat].
    + exists "", "". cbn [append]. now rewrite append_nil_r.
    + exists "", (sep ++ String.concat sep (y' :: l)). reflexivity.
  - destruct l as [|y' l]; [contradiction|].
    cbn [String.concat]. specialize (IH M).
    destruct (contains_append _ _ (y ++ sep) "" IH) as (pre & post & E).
    rewrite append_nil_r, append_assoc in E. now exists pre, post.
Qed.

Section EntryPoints.

Variable LoadPool : IPPool.t -> util.PoolInfo * option error.
Variable LoadAllocated : list (string * string) -> list netip.Addr.
Variable Cache : Type.
Variable WhoUseIPPool :
  Cache -> IPPool.t -> list VirtualMachineNetworkConfig.t * option error.
Variable CreateErr : string.
Variable DeleteErr : string.

(** C7. For every pool object whose deletion timestamp is set, [Update]
    returns no error, whatever the loader, the registry and the accessor
    of allocated addresses would answer, and it does so before doing
    anything else: no line is logged and no collaborator is called. *)
Theorem Update_deletion_short_circuit
        (v : ippool.Validator Cache) (oldObj newObj : IPPool.t) :
  IPPool.DeletionTimestamp newObj <> None ->
  ippool.Update LoadPool LoadAllocated CreateErr v oldObj newObj = ([], Normal None).
Proof.
  intros H. unfold ippool.Update.
  destruct (IPPool.DeletionTimestamp newObj); [reflexivity | contradiction].
Qed.

(** C3. For every address X that is the present server address of a pool
    description passing every other check (the loader and the registry
    succeed, the range and router checks accept, and the server check
    accepts when given no allocated address): on the Update path, with X
    among the allocated addresses, the verdict is the already-allocated
    rejection; on the Create path the same object is accepted, because
    Create gives the server check no allocated address. *)
Theorem allocated_server_update_vs_create
        (v : ippool.Validator Cache) (oldObj ipPool : IPPool.t)
        (pi : util.PoolInfo) (st : IPPool.IPv4Status) (X : netip.Addr) :
  IPPool.DeletionTimestamp ipPool = None ->
  LoadPool ipPool = (pi, None) ->
  IPPool.IPv4 (IPPool.Status ipPool) = Some st ->
  In X (LoadAllocated (IPPool.Allocated st)) ->
  netip.IsValid X = true ->
  util.ServerIPAddr pi = X ->
  verdict (ippool.checkNAD v (IPPool.NetworkName (IPPool.Spec ipPool))) = Normal None ->
  ippool.checkPoolRange pi = Normal None ->
  ippool.checkServerIP pi [] = Normal None ->
  ippool.checkRouter pi = Normal None ->
  verdict (ippool.Update LoadPool LoadAllocated CreateErr v oldObj ipPool)
  = Normal (Some (formatted CreateErr
                    ["IPPool"; IPPool.Namespace ipPool; IPPool.Name ipPool]
                    (errorString ("server ip " ++ netip.String X
                                  ++ " is already allocated"))))
  /\ verdict (ippool.Create LoadPool CreateErr v ipPool) = Normal None.
Proof.
  intros HD HL HS HM HV HX HN HR HSrv HRt. subst X. split.
  - unfold ippool.Update. rewrite HD. verdict_step.
    rewrite HL, HS. verdict_step.
    rewrite HN. verdict_step. rewrite HR. verdict_step.
    rewrite (checkServerIP_allocated_member pi _ HV HSrv HM). verdict_step.
    reflexivity.
  - unfold ippool.Create. verdict_step.
    rewrite HL. verdict_step.
    rewrite HN. verdict_step. rewrite HR. verdict_step.
    rewrite HSrv. verdict_step. rewrite HRt. verdict_step.
    reflexivity.
Qed.

(** C4. For every pool being deleted: when the dependency lookup fails,
    [checkVmNetCfgs] returns that failure as it is and [Delete] hands it
    to the caller inside its own error; when the lookup returns no
    dependent, the deletion is accepted; when it returns one or more, the
    deletion is rejected with an error that lists every dependent as
    namespace/name, joined by ", ", and says they must be removed first. *)
Theorem Delete_dependents (v : ippool.Validator Cache) (ipPool : IPPool.t) :
  (forall (deps : list VirtualMachineNetworkConfig.t) (e : error),
      WhoUseIPPool (ippool.vmnetcfgCache v) ipPool = (deps, Some e) ->
      verdict (ippool.checkVmNetCfgs WhoUseIPPool v ipPool) = Normal (Some e)
      /\ verdict (ippool.Delete WhoUseIPPool DeleteErr v ipPool)
         = Normal (Some (formatted DeleteErr
                           [IPPool.Kind ipPool; IPPool.Namespace ipPool;
                            IPPool.Name ipPool] e)))
  /\ (WhoUseIPPool (ippool.vmnetcfgCache v) ipPool = ([], None) ->
      verdict (ippool.Delete WhoUseIPPool DeleteErr v ipPool) = Normal None)
  /\ (forall deps : list VirtualMachineNetworkConfig.t,
         deps <> [] ->
         WhoUseIPPool (ippool.vmnetcfgCache v) ipPool = (deps, None) ->
         verdict (ippool.Delete WhoUseIPPool DeleteErr v ipPool)
         = Normal (Some (formatted DeleteErr
                           [IPPool.Kind ipPool; IPPool.Namespace ipPool;
                            IPPool.Name ipPool]
                           (errorString (Rules.dependentsMessage deps))))
         /\ forall d : VirtualMachineNetworkConfig.t,
             In d deps ->
             Rules.contains (Rules.dependentsMessage deps) (Rules.fullName d)).
Proof.
  split; [|split].
  - intros deps e H. split.
    + unfold ippool.checkVmNetCfgs. verdict_step. rewrite H. reflexivity.
    + unfold ippool.Delete, ippool.checkVmNetCfgs. verdict_step.
      rewrite H. verdict_step. reflexivity.
  - intros H. unfold ippool.Delete, ippool.checkVmNetCfgs. verdict_step.
    rewrite H. verdict_step. reflexivity.
  - intros deps N H. split.
    + unfold ippool.Delete, ippool.checkVmNetCfgs. verdict_step.
      rewrite H. verdict_step.
      destruct deps as [|d deps]; [contradiction|].
      cbn [List.length Nat.ltb Nat.leb]. verdict_step. reflexivity.
    + intros d M. unfold Rules.dependentsMessage.
      apply contains_append, concat_contains, in_map, M.
Qed.

End EntryPoints.

Lemma Update_deletion_short_circuit_witness :
  IPPool.DeletionTimestamp (Scenario.ipPool (Some 1700000000)) <> None
  /\ ippool.Update Scenario.failingLoader Scenario.allocatedOf "%s %s/%s: %w"
                   Scenario.validator (Scenario.ipPool None)
                   (Scenario.ipPool (Some 1700000000))
     = ([], Normal None)
  /\ verdict (ippool.Update Scenario.failingLoader Scenario.allocatedOf "%s %s/%s: %w"
                            Scenario.validator (Scenario.ipPool None)
                            (Scenario.ipPool None))
     = Normal (Some (formatted "%s %s/%s: %w" ["IPPool"; "default"; "pool-1"]
                               (errorString "invalid CIDR address"))).
Proof.
  assert (H : IPPool.DeletionTimestamp (Scenario.ipPool (Some 1700000000)) <> None)
    by discriminate.
  split; [exact H|]. split; [|reflexivity].
  exact (Update_deletion_short_circuit
           Scenario.failingLoader Scenario.allocatedOf unit "%s %s/%s: %w"
           Scenario.validator (Scenario.ipPool None)
           (Scenario.ipPool (Some 1700000000)) H).
Defined.

Lemma allocated_server_update_vs_create_witness :
  In (netip.AddrFrom4 192 168 0 2)
     (Scenario.allocatedOf [("192.168.0.2", "52:54:00:00:00:01")])
  /\ verdict (ippool.Update Scenario.loader Scenario.allocatedOf "%s %s/%s: %w"
                            Scenario.validator (Scenario.ipPool None)
                            (Scenario.ipPool None))
     = Normal (Some (formatted "%s %s/%s: %w" ["IPPool"; "default"; "pool-1"]
                               (errorString "server ip 192.168.0.2 is already allocated")))
  /\ verdict (ippool.Create Scenario.loader "%s %s/%s: %w"
                            Scenario.validator (Scenario.ipPool None))
     = Normal None.
Proof.
  assert (M : In (netip.AddrFrom4 192 168 0 2)
                 (Scenario.allocatedOf [("192.168.0.2", "52:54:00:00:00:01")]))
    by (left; reflexivity).
  split; [exact M|].
  exact (allocated_server_update_vs_create
           Scenario.loader Scenario.allocatedOf unit "%s %s/%s: %w"
           Scenario.validator (Scenario.ipPool None) (Scenario.ipPool None)
           Scenario.validPool
           {| IPPool.Allocated := [("192.168.0.2", "52:54:00:00:00:01")] |}
           (netip.AddrFrom4 192 168 0 2)
           eq_refl eq_refl eq_refl M eq_refl eq_refl eq_refl eq_refl eq_refl eq_refl).
Defined.

Lemma Delete_dependents_witness :
  Scenario.consumers <> []
  /\ verdict (ippool.Delete (Scenario.whoUse Scenario.consumers None) "%s %s/%s: %w"
                            Scenario.validator (Scenario.ipPool None))
     = Normal (Some (formatted "%s %s/%s: %w" ["IPPool"; "default"; "pool-1"]
                       (errorString
                          "it's still used by VirtualMachineNetworkConfig(s) default/vm-1, kube-system/vm-2, which must be removed at first")))
  /\ verdict (ippool.Delete (Scenario.whoUse [] None) "%s %s/%s: %w"
                            Scenario.validator (Scenario.ipPool None))
     = Normal None
  /\ verdict (ippool.Delete (Scenario.whoUse [] (Some (errorString "index not ready")))
                            "%s %s/%s: %w" Scenario.validator (Scenario.ipPool None))
     = Normal (Some (formatted "%s %s/%s: %w" ["IPPool"; "default"; "pool-1"]
                               (errorString "index not ready"))).
Proof.
  assert (N : Scenario.consumers <> []) by discriminate.
  split; [exact N|]. split; [|split].
  - exact (proj1 (proj2 (proj2 (Delete_dependents
             unit (Scenario.whoUse Scenario.consumers None) "%s %s/%s: %w"
             Scenario.validator (Scenario.ipPool None))) Scenario.consumers N eq_refl)).
  - exact (proj1 (proj2 (Delete_dependents
             unit (Scenario.whoUse [] None) "%s %s/%s: %w"
             Scenario.validator (Scenario.ipPool None))) eq_refl).
  - exact (proj2 (proj1 (Delete_dependents
             unit (Scenario.whoUse [] (Some (errorString "index not ready")))
             "%s %s/%s: %w" Scenario.validator (Scenario.ipPool None))
             [] (errorString "index not ready") eq_refl)).
Defined.

(** ** The network-existence check *)

Lemma index_noSlash (s : string) :
  Rules.noSlash s = true -> String.index 0 "/" s = None.
Proof.
  induction s as [|c s IH]; cbn [Rules.noSlash String.index]; [reflexivity|].
  rewrite andb_true_iff, negb_true_iff, Ascii.eqb_neq. intros [N H].
  cbn [String.prefix]. destruct (ascii_dec "/" c) as [E|_]; [now subst c|].
  now rewrite (IH H).
Qed.

Lemma index_first_slash (a b : string) :
  Rules.noSlash a = true ->
  String.index 0 "/" (a ++ String "/" b) = Some (String.length a).
Proof.
  induction a as [|c a IH]; cbn [Rules.noSlash append String.index String.length].
  - intros _. cbn [String.prefix]. destruct (ascii_dec "/" "/"); [|contradiction].
    now destruct b.
  - rewrite andb_true_iff, negb_true_iff, Ascii.eqb_neq. intros [N H].
    cbn [String.prefix]. destruct (ascii_dec "/" c) as [E|_]; [now subst c|].
    now rewrite (IH H).
Qed.

Lemma substring_prefix (a x : string) :
  String.substring 0 (String.length a) (a ++ x) = a.
Proof.
  induction a as [|c a IH]; cbn [append String.length String.substring].
  - now destruct x.
  - now rewrite IH.
Qed.

Lemma substring_whole (b : string) : String.substring 0 (String.length b) b = b.
Proof.
  induction b as [|c b IH]; cbn [String.length String.substring];
    [reflexivity | now rewrite IH].
Qed.

Lemma substring_skip (a x : string) (m : nat) :
  String.substring (String.length a) m (a ++ x) = String.substring 0 m x.
Proof.
  induction a as [|c a IH]; cbn [append String.length String.substring];
    [reflexivity | exact IH].
Qed.

Lemma length_append (a b : string) :
  String.length (a ++ b) = (String.length a + String.length b)%nat.
Proof.
  induction a as [|c a IH]; cbn [append String.length Nat.add];
    [reflexivity | now rewrite IH].
Qed.

Lemma SplitN2_noSlash (s : string) :
  Rules.noSlash s = true -> strings.SplitN2 s "/" = [s].
Proof.
  intros H. unfold strings.SplitN2, strings.Index. now rewrite (index_noSlash s H).
Qed.

Lemma SplitN2_first_slash (a b : string) :
  Rules.noSlash a = true -> strings.SplitN2 (a ++ "/" ++ b) "/" = [a; b].
Proof.
  intros H. unfold strings.SplitN2, strings.Index.
  change (a ++ "/" ++ b) with (a ++ String "/" b).
  rewrite (index_first_slash a b H). f_equal; [apply substring_prefix|]. f_equal.
  change (a ++ String "/" b) with (a ++ "/" ++ b).
  rewrite <- append_assoc.
  replace (String.length a + String.length "/")%nat with (String.length (a ++ "/"))
    by apply length_append.
  rewrite substring_skip, length_append.
  replace (String.length (a ++ "/") + String.length b - String.length (a ++ "/"))%nat
    with (String.length b) by lia.
  apply substring_whole.
Qed.

(** C8, as the code has it. For every network identifier, [checkNAD]
    splits it at its first "/" into a namespace part and a name part and
    trims the white space around each; an identifier without "/" has an
    empty namespace part; it puts "default" for an empty namespace part,
    queries the registry once with that namespace and name, and returns
    exactly the error of the lookup (none on success). *)
Theorem checkNAD_first_slash (C : Type) (v : ippool.Validator C) :
  (forall s : string,
      Rules.noSlash s = true ->
      ippool.checkNAD v s = Rules.query v "default" (strings.TrimSpace s))
  /\ (forall a b : string,
         Rules.noSlash a = true ->
         ippool.checkNAD v (a ++ "/" ++ b)
         = Rules.query v (Rules.orDefault (strings.TrimSpace a)) (strings.TrimSpace b)).
Proof.
  split.
  - intros s H. unfold ippool.checkNAD, kv.RSplit.
    rewrite (SplitN2_noSlash s H). reflexivity.
  - intros a b H. unfold ippool.checkNAD, kv.RSplit.
    rewrite (SplitN2_first_slash a b H). reflexivity.
Qed.

Lemma checkNAD_first_slash_witness :
  ippool.checkNAD Scenario.validator "net-1"
  = ([CallNadCacheGet "default" "net-1"], Normal None)
  /\ ippool.checkNAD Scenario.validator ("a" ++ "/" ++ "b/c")
     = Rules.query Scenario.validator "a" "b/c".
Proof.
  split.
  - exact (proj1 (checkNAD_first_slash unit Scenario.validator) "net-1" eq_refl).
  - exact (proj2 (checkNAD_first_slash unit Scenario.validator) "a" "b/c" eq_refl).
Defined.

(** C8, as stated, fails: the identifier "a/b/c" is split into "a" and
    "b/c", not into "a/b" and "c"; the registry is asked for another
    record, and the answers differ. *)
Lemma checkNAD_last_slash_counterexample :
  ippool.checkNAD Scenario.validator "a/b/c"
  = ([CallNadCacheGet "a" "b/c"],
     Normal (Some (StatusError
                     "NotFound"
                     "network-attachment-definitions.k8s.cni.cncf.io b/c not found")))
  /\ Rules.checkNAD_lastSlash Scenario.validator "a/b/c"
     = ([CallNadCacheGet "a/b" "c"], Normal None)
  /\ ippool.checkNAD Scenario.validator "a/b/c"
     <> Rules.checkNAD_lastSlash Scenario.validator "a/b/c".
Proof.
  split; [reflexivity|]. split; [reflexivity|]. discriminate.
Qed.

Example checkNAD_trims :
  ippool.checkNAD Scenario.validator " default / net-1 "
  = ([CallNadCacheGet "default" "net-1"], Normal None).
Proof. reflexivity. Qed.

(** * Further properties of the validator *)

(** ** The router-address check *)

(** X1. [checkRouter] returns no error when the router address is
    absent; for a pool of the IPv4 family it returns, and what it returns
    is the rejection of the first rule broken among: within the subnet,
    not the network address, not the broadcast address. *)
Theorem checkRouter_rules (pi : util.PoolInfo) :
  (netip.IsValid (util.RouterIPAddr pi) = false -> ippool.checkRouter pi = Normal None)
  /\ (Rules.ipv4Pool pi = true ->
      ippool.checkRouter pi = Normal (Rules.routerVerdict pi)).
Proof.
  split.
  - intros V. unfold ippool.checkRouter. now rewrite V.
  - intros W.
    destruct (ipv4Pool_fields pi W) as ([n N] & Hn & Hb & _ & _ & _ & Hr).
    unfold ippool.checkRouter, Rules.routerVerdict.
    destruct (netip.IsValid (util.RouterIPAddr pi)) eqn:V; cbn [negb]; [|reflexivity].
    pose proof (optional4_valid _ Hr V) as R4.
    rewrite (IPNet_Contains_within pi n _ N).
    rewrite !(As4_equal_has4 (util.RouterIPAddr pi)) by assumption.
    unfold Rules.boundRules. cbn [bind find Rules.breaks].
    destruct (Rules.within pi (util.RouterIPAddr pi)); cbn [negb]; [|reflexivity].
    destruct (Rules.sameIP _ (util.NetworkIPAddr pi)); [reflexivity|].
    destruct (Rules.sameIP _ (util.BroadcastIPAddr pi)); reflexivity.
Qed.

Lemma checkRouter_rules_witness :
  (netip.IsValid (util.RouterIPAddr Scenario.emptyPool) = false
   /\ ippool.checkRouter Scenario.emptyPool = Normal None)
  /\ (Rules.ipv4Pool Scenario.networkRouterPool = true
      /\ ippool.checkRouter Scenario.networkRouterPool
         = Normal (Some (errorString "router ip 192.168.0.0 is the same as network ip"))).
Proof.
  split; (split; [reflexivity|]).
  - exact (proj1 (checkRouter_rules Scenario.emptyPool) eq_refl).
  - exact (proj2 (checkRouter_rules Scenario.networkRouterPool) eq_refl).
Defined.

(** ** The allocated addresses as a set *)

Lemma existsb_same_members {A : Type} (f : A -> bool) (l l' : list A) :
  (forall x, In x l <-> In x l') -> existsb f l = existsb f l'.
Proof.
  intros H. destruct (existsb f l) eqn:E; symmetry.
  - apply existsb_exists in E. destruct E as (x & M & F).
    apply existsb_exists. exists x. split; [now apply H | exact F].
  - apply not_true_is_false. intros E'. apply existsb_exists in E'.
    destruct E' as (x & M & F).
    assert (T : existsb f l = true)
      by (apply existsb_exists; exists x; split; [now apply H | exact F]).
    congruence.
Qed.

(** X2. The verdict of [checkServerIP] depends on the allocated addresses
    as a set only: two lists with the same members, in any order and with
    any repetition, give the same result. *)
Theorem checkServerIP_allocated_as_set
        (pi : util.PoolInfo) (allocated allocated' : list netip.Addr) :
  (forall ip, In ip allocated <-> In ip allocated') ->
  ippool.checkServerIP pi allocated = ippool.checkServerIP pi allocated'.
Proof.
  intros H. unfold ippool.checkServerIP.
  rewrite !checkServerIP_allocated_existsb.
  now rewrite (existsb_same_members _ _ _ H).
Qed.

Lemma checkServerIP_allocated_as_set_witness :
  ippool.checkServerIP Scenario.validPool
                       [netip.AddrFrom4 192 168 0 9; netip.AddrFrom4 192 168 0 2]
  = ippool.checkServerIP Scenario.validPool
                         [netip.AddrFrom4 192 168 0 2; netip.AddrFrom4 192 168 0 9;
                          netip.AddrFrom4 192 168 0 2].
Proof.
  apply checkServerIP_allocated_as_set. intros ip. cbn [In]. tauto.
Defined.

Lemma checkServerIP_no_match (pi : util.PoolInfo) (allocated : list netip.Addr) :
  (forall ip, In ip allocated -> netip.Addr_eqb (util.ServerIPAddr pi) ip = false) ->
  ippool.checkServerIP pi allocated = ippool.checkServerIP pi [].
Proof.
  intros H. unfold ippool.checkServerIP.
  rewrite !checkServerIP_allocated_existsb.
  replace (existsb (netip.Addr_eqb (util.ServerIPAddr pi)) allocated) with false;
    [reflexivity|].
  symmetry. apply not_true_is_false. intros E. apply existsb_exists in E.
  destruct E as (x & M & F). rewrite (H x M) in F. discriminate.
Qed.

(** ** Create, Update and Delete as pipelines *)

Section Pipelines.

Variable LoadPool : IPPool.t -> util.PoolInfo * option error.
Variable LoadAllocated : list (string * string) -> list netip.Addr.
Variable Cache : Type.
Variable WhoUseIPPool :
  Cache -> IPPool.t -> list VirtualMachineNetworkConfig.t * option error.
Variable CreateErr : string.
Variable DeleteErr : string.

(** X3. For a pool object that is not marked for deletion and none of
    whose allocated addresses is equal to the loaded server address (in
    particular when its status holds no allocation), [Update] reaches the
    same verdict as [Create]: same acceptance, same error, same panic. *)
Theorem Update_agrees_with_Create
        (v : ippool.Validator Cache) (oldObj newObj : IPPool.t) :
  IPPool.DeletionTimestamp newObj = None ->
  (forall st ip,
      IPPool.IPv4 (IPPool.Status newObj) = Some st ->
      In ip (LoadAllocated (IPPool.Allocated st)) ->
      netip.Addr_eqb (util.ServerIPAddr (fst (LoadPool newObj))) ip = false) ->
  verdict (ippool.Update LoadPool LoadAllocated CreateErr v oldObj newObj)
  = verdict (ippool.Create LoadPool CreateErr v newObj).
Proof.
  intros HD H. unfold ippool.Update, ippool.Create. rewrite HD. verdict_step.
  destruct (LoadPool newObj) as [pi [e|]]; [reflexivity|]. cbn [fst] in H.
  destruct (IPPool.IPv4 (IPPool.Status newObj)) as [st|]; verdict_step;
    [|reflexivity].
  rewrite (checkServerIP_no_match pi _ (fun ip => H st ip eq_refl)). reflexivity.
Qed.

(** X4. [Create] accepts exactly when the loader succeeds, the network
    lookup returns no error, and the range, server-address (with no
    allocated address) and router-address checks each return no error. *)
Theorem Create_accepts_iff (v : ippool.Validator Cache) (newObj : IPPool.t) :
  verdict (ippool.Create LoadPool CreateErr v newObj) = Normal None
  <-> snd (LoadPool newObj) = None
      /\ verdict (ippool.checkNAD v (IPPool.NetworkName (IPPool.Spec newObj)))
         = Normal None
      /\ ippool.checkPoolRange (fst (LoadPool newObj)) = Normal None
      /\ ippool.checkServerIP (fst (LoadPool newObj)) [] = Normal None
      /\ ippool.checkRouter (fst (LoadPool newObj)) = Normal None.
Proof.
  unfold ippool.Create. verdict_step.
  destruct (LoadPool newObj) as [pi [e|]]; cbn [fst snd]; verdict_step.
  { split; [discriminate | intros (H & _); discriminate]. }
  destruct (verdict (ippool.checkNAD v _)) as [[e|]|m]; cbn [bind]; verdict_step;
    try (split; [discriminate | intros (_ & H & _); discriminate]).
  destruct (ippool.checkPoolRange pi) as [[e|]|m]; cbn [bind]; verdict_step;
    try (split; [discriminate | intros (_ & _ & H & _); discriminate]).
  destruct (ippool.checkServerIP pi []) as [[e|]|m]; cbn [bind]; verdict_step;
    try (split; [discriminate | intros (_ & _ & _ & H & _); discriminate]).
  destruct (ippool.checkRouter pi) as [[e|]|m]; cbn [bind]; verdict_step;
    try (split; [discriminate | intros (_ & _ & _ & _ & H); discriminate]).
  split; auto.
Qed.

(** X5. Every error an entry point returns names the pool: [Create] and
    [Update] both build it with the format [webhook.CreateErr], the kind
    "IPPool" and the namespace and name of the object; [Delete] builds it
    with [webhook.DeleteErr], the kind recorded in the object and its
    namespace and name. *)
Theorem entry_point_errors_name_the_pool
        (v : ippool.Validator Cache) (oldObj obj : IPPool.t) (err : error) :
  (verdict (ippool.Create LoadPool CreateErr v obj) = Normal (Some err) ->
   exists e, err = formatted CreateErr
                     ["IPPool"; IPPool.Namespace obj; IPPool.Name obj] e)
  /\ (verdict (ippool.Update LoadPool LoadAllocated CreateErr v oldObj obj)
      = Normal (Some err) ->
      exists e, err = formatted CreateErr
                        ["IPPool"; IPPool.Namespace obj; IPPool.Name obj] e)
  /\ (verdict (ippool.Delete WhoUseIPPool DeleteErr v obj) = Normal (Some err) ->
      exists e, err = formatted DeleteErr
                        [IPPool.Kind obj; IPPool.Namespace obj; IPPool.Name obj] e).
Proof.
  split; [|split].
  - unfold ippool.Create. verdict_step.
    destruct (LoadPool obj) as [pi [e|]]; verdict_step;
      [intros H; injection H as <-; eauto|].
    destruct (verdict (ippool.checkNAD v _)) as [[e|]|m]; cbn [bind]; verdict_step;
      try discriminate; try (intros H; injection H as <-; eauto; fail).
    destruct (ippool.checkPoolRange pi) as [[e|]|m]; cbn [bind]; verdict_step;
      try discriminate; try (intros H; injection H as <-; eauto; fail).
    destruct (ippool.checkServerIP pi []) as [[e|]|m]; cbn [bind]; verdict_step;
      try discriminate; try (intros H; injection H as <-; eauto; fail).
    destruct (ippool.checkRouter pi) as [[e|]|m]; cbn [bind]; verdict_step;
      try discriminate; try (intros H; injection H as <-; eauto; fail).
  - unfold ippool.Update.
    destruct (IPPool.DeletionTimestamp obj); [discriminate|]. verdict_step.
    destruct (LoadPool obj) as [pi [e|]]; verdict_step;
      [intros H; injection H as <-; eauto|].
    destruct (IPPool.IPv4 (IPPool.Status obj)) as [st|]; verdict_step;
      (destruct (verdict (ippool.checkNAD v _)) as [[e|]|m]; cbn [bind]; verdict_step;
         try discriminate; try (intros H; injection H as <-; eauto; fail);
       destruct (ippool.checkPoolRange pi) as [[e|]|m]; cbn [bind]; verdict_step;
         try discriminate; try (intros H; injection H as <-; eauto; fail);
       match goal with
       | |- context [ippool.checkServerIP pi ?l] =>
           destruct (ippool.checkServerIP pi l) as [[e|]|m]
       end; cbn [bind]; verdict_step;
         try discriminate; try (intros H; injection H as <-; eauto; fail);
       destruct (ippool.checkRouter pi) as [[e|]|m]; cbn [bind]; verdict_step;
         try discriminate; try (intros H; injection H as <-; eauto; fail)).
  - unfold ippool.Delete. verdict_step.
    destruct (verdict (ippool.checkVmNetCfgs WhoUseIPPool v obj)) as [[e|]|m];
      cbn [bind]; verdict_step; try discriminate.
    intros H; injection H as <-; eauto.
Qed.

(** X6. When the loader fails, [Create] and (for an object not marked
    for deletion) [Update] return its error inside theirs after one log
    line and the one call of the loader: the registry is not queried and
    the allocated addresses are not read. *)
Theorem loader_failure_stops
        (v : ippool.Validator Cache) (oldObj obj : IPPool.t)
        (pi : util.PoolInfo) (e : error) :
  LoadPool obj = (pi, Some e) ->
  ippool.Create LoadPool CreateErr v obj
  = ([Infof ("create ippool " ++ IPPool.Namespace obj ++ "/" ++ IPPool.Name obj);
      CallLoadPool obj],
     Normal (Some (formatted CreateErr
                     ["IPPool"; IPPool.Namespace obj; IPPool.Name obj] e)))
  /\ (IPPool.DeletionTimestamp obj = None ->
      ippool.Update LoadPool LoadAllocated CreateErr v oldObj obj
      = ([Infof ("update ippool " ++ IPPool.Namespace obj ++ "/" ++ IPPool.Name obj);
          CallLoadPool obj],
         Normal (Some (formatted CreateErr
                         ["IPPool"; IPPool.Namespace obj; IPPool.Name obj] e)))).
Proof.
  intros H. split.
  - unfold ippool.Create. cbn [tbind emit call]. rewrite H. reflexivity.
  - intros HD. unfold ippool.Update. rewrite HD. cbn [tbind emit call].
    rewrite H. reflexivity.
Qed.

(** X7. When the loader succeeds and the network lookup fails, [Create]
    and (for an object not marked for deletion) [Update] return the error
    of the lookup inside theirs whatever the pool description is: no
    address rule is consulted, so no violation and no panic of the address
    checks can take its place. *)
Theorem registry_failure_comes_first
        (v : ippool.Validator Cache) (oldObj obj : IPPool.t)
        (pi : util.PoolInfo) (e : error) :
  LoadPool obj = (pi, None) ->
  verdict (ippool.checkNAD v (IPPool.NetworkName (IPPool.Spec obj))) = Normal (Some e) ->
  verdict (ippool.Create LoadPool CreateErr v obj)
  = Normal (Some (formatted CreateErr
                    ["IPPool"; IPPool.Namespace obj; IPPool.Name obj] e))
  /\ (IPPool.DeletionTimestamp obj = None ->
      verdict (ippool.Update LoadPool LoadAllocated CreateErr v oldObj obj)
      = Normal (Some (formatted CreateErr
                        ["IPPool"; IPPool.Namespace obj; IPPool.Name obj] e))).
Proof.
  intros HL HN. split.
  - unfold ippool.Create. verdict_step. rewrite HL. verdict_step.
    rewrite HN. reflexivity.
  - intros HD. unfold ippool.Update. rewrite HD. verdict_step.
    rewrite HL. verdict_step.
    destruct (IPPool.IPv4 (IPPool.Status obj)); verdict_step;
      rewrite HN; reflexivity.
Qed.

End Pipelines.

Lemma Update_agrees_with_Create_witness :
  verdict (ippool.Update Scenario.loader Scenario.otherAllocated "%s %s/%s: %w"
                         Scenario.validator (Scenario.ipPool None) (Scenario.ipPool None))
  = verdict (ippool.Create Scenario.loader "%s %s/%s: %w"
                           Scenario.validator (Scenario.ipPool None))
  /\ verdict (ippool.Create Scenario.loader "%s %s/%s: %w"
                            Scenario.validator (Scenario.ipPool None))
     = Normal None.
Proof.
  split; [|reflexivity].
  apply (Update_agrees_with_Create Scenario.loader Scenario.otherAllocated unit
                                   "%s %s/%s: %w" Scenario.validator).
  - reflexivity.
  - intros st ip _ [<-|[]]. reflexivity.
Defined.

Lemma entry_point_errors_name_the_pool_witness :
  verdict (ippool.Update Scenario.failingLoader Scenario.allocatedOf "%s %s/%s: %w"
                         Scenario.validator (Scenario.ipPool None) (Scenario.ipPool None))
  = Normal (Some (formatted "%s %s/%s: %w" ["IPPool"; "default"; "pool-1"]
                            (errorString "invalid CIDR address")))
  /\ exists e : error,
      formatted "%s %s/%s: %w" ["IPPool"; "default"; "pool-1"]
                (errorString "invalid CIDR address")
      = formatted "%s %s/%s: %w" ["IPPool"; "default"; "pool-1"] e.
Proof.
  split; [reflexivity|].
  exact (proj1 (proj2 (entry_point_errors_name_the_pool
                         Scenario.failingLoader Scenario.allocatedOf unit
                         (Scenario.whoUse [] None) "%s %s/%s: %w" "%s %s/%s: %w"
                         Scenario.validator (Scenario.ipPool None) (Scenario.ipPool None)
                         (formatted "%s %s/%s: %w" ["IPPool"; "default"; "pool-1"]
                                    (errorString "invalid CIDR address"))))
               eq_refl).
Defined.

Lemma loader_failure_stops_witness :
  ippool.Create Scenario.failingLoader "%s %s/%s: %w" Scenario.validator
                (Scenario.ipPool None)
  = ([Infof "create ippool default/pool-1"; CallLoadPool (Scenario.ipPool None)],
     Normal (Some (formatted "%s %s/%s: %w" ["IPPool"; "default"; "pool-1"]
                             (errorString "invalid CIDR address")))).
Proof.
  exact (proj1 (loader_failure_stops
                  Scenario.failingLoader Scenario.allocatedOf unit "%s %s/%s: %w"
                  Scenario.validator (Scenario.ipPool None) (Scenario.ipPool None)
                  _ _ eq_refl)).
Defined.

Lemma registry_failure_comes_first_witness :
  ippool.checkPoolRange (fst (Scenario.subnetlessLoader Scenario.unknownNetworkPool))
  = Panic "runtime error: invalid memory address or nil pointer dereference"
  /\ verdict (ippool.Create Scenario.subnetlessLoader "%s %s/%s: %w"
                            Scenario.validator Scenario.unknownNetworkPool)
     = Normal (Some (formatted
                       "%s %s/%s: %w" ["IPPool"; "default"; "pool-2"]
                       (StatusError
                          "NotFound"
                          "network-attachment-definitions.k8s.cni.cncf.io net-9 not found"))).
Proof.
  split; [reflexivity|].
  exact (proj1 (registry_failure_comes_first
                  Scenario.subnetlessLoader Scenario.allocatedOf unit "%s %s/%s: %w"
                  Scenario.validator Scenario.unknownNetworkPool
                  Scenario.unknownNetworkPool _ _ eq_refl eq_refl)).
Defined.

(** ** The query of the registry *)

(** X8. Whatever the network identifier, [checkNAD] asks the registry
    exactly once, never with an empty namespace, and returns the error of
    that lookup as it is. *)
Theorem checkNAD_one_query (C : Type) (v : ippool.Validator C) (s : string) :
  exists namespace name : string,
    namespace <> ""
    /\ ippool.checkNAD v s
       = ([CallNadCacheGet namespace name],
          Normal (snd (ctlcniv1.Get (ippool.nadCache v) namespace name))).
Proof.
  unfold ippool.checkNAD. destruct (kv.RSplit s "/") as [a b].
  destruct (String.eqb_spec a "") as [E|N].
  - exists "default", b. split; [discriminate | reflexivity].
  - exists a, b. split; [exact N | reflexivity].
Qed.

Lemma trimLeft_nothing (ps : list string) (n : nat) (s : string) :
  strings.cutAnyPrefix ps s = None -> strings.trimLeft ps n s = s.
Proof. intros H. destruct n; cbn [strings.trimLeft]; [reflexivity | now rewrite H]. Qed.

Lemma rev_append (a b : string) :
  strings.rev (a ++ b) = strings.rev b ++ strings.rev a.
Proof.
  induction a as [|c a IH]; cbn [append strings.rev].
  - now rewrite append_nil_r.
  - now rewrite IH, append_assoc.
Qed.

Lemma rev_involutive (s : string) : strings.rev (strings.rev s) = s.
Proof.
  induction s as [|c s IH]; cbn [strings.rev]; [reflexivity|].
  rewrite rev_append, IH. reflexivity.
Qed.

(** A string without white space at its ends is left as it is. *)
Lemma TrimSpace_trimmed (s : string) :
  Rules.trimmed s = true -> strings.TrimSpace s = s.
Proof.
  unfold Rules.trimmed, strings.TrimSpace.
  destruct (strings.cutAnyPrefix strings.spaces s) eqn:L; [discriminate|].
  rewrite (trimLeft_nothing _ _ _ L).
  destruct (strings.cutAnyPrefix (map strings.rev strings.spaces) (strings.rev s)) eqn:R;
    [discriminate|].
  intros _. rewrite (trimLeft_nothing _ _ _ R). apply rev_involutive.
Qed.

(** X9. An identifier written namespace/name, the namespace not empty and
    without "/", neither part with white space at its ends, makes
    [checkNAD] query exactly that namespace and that name; an identifier
    without "/" and without white space at its ends is looked up as a name
    in the namespace "default". *)
Theorem checkNAD_qualified (C : Type) (v : ippool.Validator C) :
  (forall namespace name : string,
      Rules.noSlash namespace = true -> namespace <> "" ->
      Rules.trimmed namespace = true -> Rules.trimmed name = true ->
      ippool.checkNAD v (namespace ++ "/" ++ name) = Rules.query v namespace name)
  /\ (forall name : string,
         Rules.noSlash name = true -> Rules.trimmed name = true ->
         ippool.checkNAD v name = Rules.query v "default" name).
Proof.
  split.
  - intros a b S N Ta Tb. unfold ippool.checkNAD, kv.RSplit.
    rewrite (SplitN2_first_slash a b S).
    cbn [List.length Nat.eqb nth kv.safeIndex Nat.leb].
    rewrite (TrimSpace_trimmed a Ta), (TrimSpace_trimmed b Tb).
    destruct (String.eqb_spec a "") as [E|_]; [contradiction | reflexivity].
  - intros s S T. unfold ippool.checkNAD, kv.RSplit.
    rewrite (SplitN2_noSlash s S). cbn [List.length Nat.eqb nth].
    rewrite (TrimSpace_trimmed s T). reflexivity.
Qed.

Lemma checkNAD_qualified_witness :
  ippool.checkNAD Scenario.validator ("kube-system" ++ "/" ++ "net-2")
  = ([CallNadCacheGet "kube-system" "net-2"],
     Normal (Some (StatusError
                     "NotFound"
                     "network-attachment-definitions.k8s.cni.cncf.io net-2 not found")))
  /\ ippool.checkNAD Scenario.validator "net-1"
     = ([CallNadCacheGet "default" "net-1"], Normal None).
Proof.
  split.
  - exact (proj1 (checkNAD_qualified unit Scenario.validator) "kube-system" "net-2"
                 eq_refl ltac:(discriminate) eq_refl eq_refl).
  - exact (proj2 (checkNAD_qualified unit Scenario.validator) "net-1" eq_refl eq_refl).
Defined.

(** ** IPv4-mapped and IPv6 addresses *)

Lemma uint8_shiftr_uint32 (x k : Z) :
  0 <= k <= 24 -> uint8 (Z.shiftr (uint32 x) k) = uint8 (Z.shiftr x k).
Proof.
  intros Hk. unfold uint8, uint32.
  change 255 with (Z.ones 8). change 4294967295 with (Z.ones 32).
  apply Z.bits_inj'. intros n Hn.
  rewrite !Z.land_spec, !Z.shiftr_spec, Z.land_spec by lia.
  destruct (Z.ltb_spec n 8) as [L|G].
  - rewrite (Z.ones_spec_low 32 (n + k)) by lia. now rewrite andb_true_r.
  - rewrite (Z.ones_spec_high 8 n) by lia. now rewrite !andb_false_r.
Qed.

Lemma BEPutUint32_uint32 (x : Z) :
  netip.BEPutUint32 (uint32 x)
  = [uint8 (Z.shiftr x 24); uint8 (Z.shiftr x 16); uint8 (Z.shiftr x 8); uint8 x].
Proof.
  unfold netip.BEPutUint32.
  rewrite !uint8_shiftr_uint32 by lia.
  rewrite <- (Z.shiftr_0_r (uint32 x)), uint8_shiftr_uint32 by lia.
  now rewrite Z.shiftr_0_r.
Qed.

Lemma Is4In6_fields (x : netip.Addr) :
  netip.Is4In6 x = true ->
  (exists zone, netip.z x = netip.z6 zone)
  /\ netip.hi (netip.addr x) = 0
  /\ Z.shiftr (netip.lo (netip.addr x)) 32 = 65535.
Proof.
  unfold netip.Is4In6, netip.Is6. rewrite !andb_true_iff, !Z.eqb_eq.
  intros (((N0 & N4) & H) & L). repeat split; try assumption.
  destruct (netip.z x) as [| |zone]; cbn [netip.addrDetail_eqb negb] in *;
    try discriminate. now exists zone.
Qed.

Lemma BEPutUint32_length (v : Z) : List.length (netip.BEPutUint32 v) = 4%nat.
Proof. reflexivity. Qed.

(** The 16 bytes of an IPv4-mapped address: the fixed prefix, then the
    four bytes of the IPv4 address. *)
Lemma AsSlice_4In6 (x : netip.Addr) :
  netip.Is4In6 x = true ->
  netip.AsSlice x = (net.v4InV6Prefix ++ netip.BEPutUint32 (netip.v4value x))%list.
Proof.
  intros H. destruct (Is4In6_fields x H) as ([zone Z6] & Hhi & Hlo).
  unfold netip.AsSlice, netip.v4value. rewrite Z6, Hhi, BEPutUint32_uint32.
  change (netip.BEPutUint64 0) with [0; 0; 0; 0; 0; 0; 0; 0].
  unfold netip.BEPutUint64.
  replace (Z.shiftr (netip.lo (netip.addr x)) 56)
    with (Z.shiftr (Z.shiftr (netip.lo (netip.addr x)) 32) 24)
    by (now rewrite Z.shiftr_shiftr by lia).
  replace (Z.shiftr (netip.lo (netip.addr x)) 48)
    with (Z.shiftr (Z.shiftr (netip.lo (netip.addr x)) 32) 16)
    by (now rewrite Z.shiftr_shiftr by lia).
  replace (Z.shiftr (netip.lo (netip.addr x)) 40)
    with (Z.shiftr (Z.shiftr (netip.lo (netip.addr x)) 32) 8)
    by (now rewrite Z.shiftr_shiftr by lia).
  rewrite Hlo. reflexivity.
Qed.

Lemma To4_mapped (l : list Z) :
  List.length l = 4%nat -> net.To4 (net.v4InV6Prefix ++ l)%list = Some l.
Proof.
  destruct l as [|a [|b [|c [|d [|e l]]]]]; try discriminate. reflexivity.
Qed.

Lemma To4_four (l : list Z) : List.length l = 4%nat -> net.To4 l = Some l.
Proof. intros H. unfold net.To4. now rewrite H. Qed.

Lemma Unmap_4In6 (x : netip.Addr) :
  netip.Is4In6 x = true ->
  netip.Unmap x = {| netip.addr := netip.addr x; netip.z := netip.z4 |}.
Proof. intros H. unfold netip.Unmap. now rewrite H. Qed.

(** X11. For the subnet rule and for the collision rules an IPv4-mapped
    IPv6 address behaves exactly as the IPv4 address it maps: same
    membership in the subnet, same 4-byte form, so it passes the three
    per-bound rules exactly when the IPv4 address does; the two are
    nevertheless different addresses for [==]. *)
Theorem mapped_address_as_IPv4 (pi : util.PoolInfo) (x : netip.Addr) :
  netip.Is4In6 x = true ->
  ippool.IPNet_Contains pi x = ippool.IPNet_Contains pi (netip.Unmap x)
  /\ netip.As4 x = netip.As4 (netip.Unmap x)
  /\ (Rules.passes pi x <-> Rules.passes pi (netip.Unmap x))
  /\ netip.Addr_eqb x (netip.Unmap x) = false.
Proof.
  intros H.
  assert (C : ippool.IPNet_Contains pi x = ippool.IPNet_Contains pi (netip.Unmap x)).
  { unfold ippool.IPNet_Contains. destruct (util.IPNet pi) as [n|]; [|reflexivity].
    f_equal. unfold net.Contains.
    rewrite (AsSlice_4In6 x H), (To4_mapped _ (BEPutUint32_length _)).
    rewrite (Unmap_4In6 x H). unfold netip.AsSlice. cbn [netip.z netip.addr].
    fold (netip.v4value x). now rewrite (To4_four _ (BEPutUint32_length _)). }
  assert (A : netip.As4 x = netip.As4 (netip.Unmap x)).
  { rewrite (Unmap_4In6 x H). unfold netip.As4. rewrite H, orb_true_r. reflexivity. }
  split; [exact C|]. split; [exact A|]. split.
  - unfold Rules.passes, ippool.As4_equal. now rewrite C, A.
  - unfold netip.Addr_eqb. rewrite (Unmap_4In6 x H). cbn [netip.z netip.addr].
    destruct (Is4In6_fields x H) as ([zone Z6] & _). rewrite Z6.
    cbn [netip.addrDetail_eqb]. apply andb_false_r.
Qed.

Lemma mapped_address_as_IPv4_witness :
  netip.Unmap (netip.Addr4In6 192 168 0 1) = netip.AddrFrom4 192 168 0 1
  /\ ippool.IPNet_Contains Scenario.validPool (netip.Addr4In6 192 168 0 1)
     = Normal true
  /\ netip.Addr_eqb (netip.Addr4In6 192 168 0 1)
                    (netip.Unmap (netip.Addr4In6 192 168 0 1)) = false.
Proof.
  split; [reflexivity|]. split; [reflexivity|].
  exact (proj2 (proj2 (proj2 (mapped_address_as_IPv4
                                Scenario.validPool (netip.Addr4In6 192 168 0 1)
                                eq_refl)))).
Defined.

Lemma shiftr32_range (v : Z) :
  0 <= v < 2 ^ 64 -> 0 <= Z.shiftr v 32 < 4294967296.
Proof.
  intros H. rewrite Z.shiftr_div_pow2 by lia. split.
  - apply Z.div_pos; lia.
  - apply Z.div_lt_upper_bound; lia.
Qed.

Lemma BEPutUint32_shiftr32 (v : Z) :
  netip.BEPutUint32 (Z.shiftr v 32)
  = [uint8 (Z.shiftr v 56); uint8 (Z.shiftr v 48); uint8 (Z.shiftr v 40);
     uint8 (Z.shiftr v 32)].
Proof.
  unfold netip.BEPutUint32. rewrite !Z.shiftr_shiftr by lia. reflexivity.
Qed.

(** The four bytes of the number that four bytes spell. *)
Lemma BEPutUint32_of_bytes (a b c d : Z) :
  0 <= a < 256 -> 0 <= b < 256 -> 0 <= c < 256 -> 0 <= d < 256 ->
  netip.BEPutUint32 (16777216 * a + 65536 * b + 256 * c + d) = [a; b; c; d].
Proof.
  intros Ra Rb Rc Rd.
  unfold netip.BEPutUint32. rewrite !uint8_mod, !Z.shiftr_div_pow2 by lia.
  change (2 ^ 24) with 16777216. change (2 ^ 16) with 65536. change (2 ^ 8) with 256.
  f_equal; [|f_equal; [|f_equal; [|f_equal]]].
  - replace (16777216 * a + 65536 * b + 256 * c + d)
      with (65536 * b + 256 * c + d + a * 16777216) by lia.
    rewrite Z.div_add, (Z.div_small (65536 * b + 256 * c + d)) by lia.
    apply Z.mod_small. lia.
  - replace (16777216 * a + 65536 * b + 256 * c + d)
      with (256 * c + d + (256 * a + b) * 65536) by lia.
    rewrite Z.div_add, (Z.div_small (256 * c + d)) by lia.
    replace (0 + (256 * a + b)) with (b + a * 256) by lia.
    rewrite Z.mod_add by lia. apply Z.mod_small. lia.
  - replace (16777216 * a + 65536 * b + 256 * c + d)
      with (d + (65536 * a + 256 * b + c) * 256) by lia.
    rewrite Z.div_add, (Z.div_small d) by lia.
    replace (0 + (65536 * a + 256 * b + c)) with (c + (256 * a + b) * 256) by lia.
    rewrite Z.mod_add by lia. apply Z.mod_small. lia.
  - replace (16777216 * a + 65536 * b + 256 * c + d)
      with (d + (65536 * a + 256 * b + c) * 256) by lia.
    rewrite Z.mod_add by lia. apply Z.mod_small. lia.
Qed.

(** A 64-bit value whose upper four bytes are [a b c d] has the number they
    spell as its upper half. *)
Lemma upper_half (v a b c d : Z) :
  0 <= v < 2 ^ 64 -> 0 <= a < 256 -> 0 <= b < 256 -> 0 <= c < 256 -> 0 <= d < 256 ->
  uint8 (Z.shiftr v 56) = a -> uint8 (Z.shiftr v 48) = b ->
  uint8 (Z.shiftr v 40) = c -> uint8 (Z.shiftr v 32) = d ->
  Z.shiftr v 32 = 16777216 * a + 65536 * b + 256 * c + d.
Proof.
  intros R Ra Rb Rc Rd A B C D.
  apply BEPutUint32_inj; [now apply shiftr32_range | lia |].
  rewrite BEPutUint32_shiftr32, A, B, C, D.
  symmetry. now apply BEPutUint32_of_bytes.
Qed.

Lemma uint64_zero (v : Z) :
  0 <= v < 2 ^ 64 ->
  netip.BEPutUint64 v = [0; 0; 0; 0; 0; 0; 0; 0] -> v = 0.
Proof.
  intros R H. unfold netip.BEPutUint64 in H.
  assert (E : forall a b c d e f g h a' b' c' d' e' f' g' h' : Z,
             [a; b; c; d; e; f; g; h] = [a'; b'; c'; d'; e'; f'; g'; h'] ->
             a = a' /\ b = b' /\ c = c' /\ d = d' /\ e = e' /\ f = f' /\ g = g' /\ h = h')
    by (intros; inversion H0; repeat split; reflexivity).
  apply E in H. destruct H as (H7 & H6 & H5 & H4 & H3 & H2 & H1 & H0).
  pose proof (upper_half v 0 0 0 0 R ltac:(lia) ltac:(lia) ltac:(lia) ltac:(lia)
                         H7 H6 H5 H4) as U.
  rewrite Z.shiftr_div_pow2 in U by lia.
  assert (S : 0 <= v < 4294967296).
  { split; [lia|]. change (2 ^ 32) with 4294967296 in U.
    pose proof (Z.div_mod v 4294967296 ltac:(lia)).
    pose proof (Z.mod_pos_bound v 4294967296 ltac:(lia)). lia. }
  apply BEPutUint32_inj; [exact S | lia |].
  unfold netip.BEPutUint32. now rewrite H3, H2, H1, H0.
Qed.

(** The 16 bytes of an IPv6 address that is not IPv4-mapped have no 4-byte
    form. *)
Lemma To4_AsSlice_v6 (x : netip.Addr) (zone : string) :
  netip.z x = netip.z6 zone -> netip.inRange x = true -> netip.Is4In6 x = false ->
  net.To4 (netip.AsSlice x) = None.
Proof.
  intros Z6 R N. unfold netip.inRange in R.
  rewrite !andb_true_iff, !Z.leb_le, !Z.ltb_lt in R.
  destruct R as (((Rh0 & Rh1) & Rl0) & Rl1).
  unfold netip.AsSlice. rewrite Z6.
  destruct (net.To4 _) as [l|] eqn:T; [exfalso|reflexivity].
  unfold net.To4, netip.BEPutUint64 in T.
  cbn [app List.length Nat.eqb net.IPv4len net.IPv6len firstn skipn nth net.isZeros
       forallb andb] in T.
  match type of T with
  | (if ?c then _ else _) = _ => destruct c eqn:E; [|discriminate]
  end.
  clear T. rewrite !andb_true_iff, !Z.eqb_eq in E.
  destruct E as (((H7 & H6 & H5 & H4 & H3 & H2 & H1 & H0 & L7 & L6 & _) & L5) & L4).
  assert (Hhi : netip.hi (netip.addr x) = 0).
  { apply uint64_zero; [lia|]. unfold netip.BEPutUint64.
    now rewrite H7, H6, H5, H4, H3, H2, H1, H0. }
  pose proof (upper_half (netip.lo (netip.addr x)) 0 0 255 255 ltac:(lia)
                         ltac:(lia) ltac:(lia) ltac:(lia) ltac:(lia) L7 L6 L5 L4) as Hlo.
  unfold netip.Is4In6, netip.Is6 in N. rewrite Z6, Hhi, Hlo in N.
  cbn [netip.addrDetail_eqb negb andb] in N. discriminate N.
Qed.

Lemma networkNumberAndMask_length (n : net.IPNet) :
  List.length (net.IP n) = 4%nat ->
  List.length (fst (net.networkNumberAndMask n)) = 4%nat
  \/ List.length (fst (net.networkNumberAndMask n)) = 0%nat.
Proof.
  intros H. unfold net.networkNumberAndMask. rewrite (To4_four _ H), H.
  cbn [Nat.eqb net.IPv4len negb].
  destruct (Nat.eqb (List.length (net.Mask n)) net.IPv4len);
    [left; exact H|].
  destruct (Nat.eqb (List.length (net.Mask n)) net.IPv6len); cbn [fst];
    [left; exact H | right; reflexivity].
Qed.

Lemma Contains_v6_on_v4 (n : net.IPNet) (x : netip.Addr) :
  List.length (net.IP n) = 4%nat ->
  netip.IsValid x = true -> Rules.has4 x = false -> netip.inRange x = true ->
  net.Contains n (netip.AsSlice x) = false.
Proof.
  intros H V N R. unfold Rules.has4 in N. apply orb_false_iff in N.
  destruct N as [N4 N46].
  assert (Z6 : exists zone, netip.z x = netip.z6 zone).
  { unfold netip.IsValid, netip.Is4 in *.
    destruct (netip.z x) as [| |zone]; cbn [netip.addrDetail_eqb negb] in *;
      try discriminate. now exists zone. }
  destruct Z6 as [zone Z6].
  unfold net.Contains. rewrite (To4_AsSlice_v6 x zone Z6 R N46).
  destruct (net.networkNumberAndMask n) as [nn m] eqn:NM.
  assert (L : List.length (netip.AsSlice x) = 16%nat)
    by (unfold netip.AsSlice; rewrite Z6; reflexivity).
  rewrite L.
  destruct (networkNumberAndMask_length n H) as [E|E]; rewrite NM in E;
    cbn [fst] in E; rewrite E; reflexivity.
Qed.

(** X10. On a subnet whose address has four bytes, a present IPv6 address
    that is not IPv4-mapped lies outside the subnet: as a start, server
    or router address it is rejected as not within subnet, and the check
    does not reach the comparison that would panic on it. *)
Theorem ipv6_address_on_ipv4_subnet (pi : util.PoolInfo) (x : netip.Addr) :
  Rules.ipv4Subnet pi = true ->
  netip.IsValid x = true -> Rules.has4 x = false -> netip.inRange x = true ->
  ippool.IPNet_Contains pi x = Normal false
  /\ (util.StartIPAddr pi = x ->
      ippool.checkPoolRange pi
      = Normal (Some (errorString ("start ip " ++ netip.String x
                                   ++ " is not within subnet"))))
  /\ (util.ServerIPAddr pi = x ->
      forall allocated,
        ippool.checkServerIP pi allocated
        = Normal (Some (errorString ("server ip " ++ netip.String x
                                     ++ " is not within subnet"))))
  /\ (util.RouterIPAddr pi = x ->
      ippool.checkRouter pi
      = Normal (Some (errorString ("router ip " ++ netip.String x
                                   ++ " is not within subnet")))).
Proof.
  intros S V N R.
  assert (C : ippool.IPNet_Contains pi x = Normal false).
  { unfold Rules.ipv4Subnet in S. unfold ippool.IPNet_Contains.
    destruct (util.IPNet pi) as [n|]; [|discriminate].
    apply Nat.eqb_eq in S. now rewrite (Contains_v6_on_v4 n x S V N R). }
  split; [exact C|]. split; [|split].
  - intros <-. unfold ippool.checkPoolRange. now rewrite V, C.
  - intros <- allocated. unfold ippool.checkServerIP. now rewrite V, C.
  - intros <-. unfold ippool.checkRouter. now rewrite V, C.
Qed.

Lemma ipv6_address_on_ipv4_subnet_witness :
  ippool.checkRouter Scenario.ipv6RouterPool
  = Normal (Some (errorString "router ip 2001:db8::1 is not within subnet")).
Proof.
  exact (proj2 (proj2 (proj2 (ipv6_address_on_ipv4_subnet
                                Scenario.ipv6RouterPool Scenario.ipv6Router
                                eq_refl eq_refl eq_refl eq_refl))) eq_refl).
Defined.

(** X12. For two addresses of the IPv4 family the comparison of the
    collision rules, [a.As4() == b.As4()], returns, and it holds exactly
    when the two denote the same 32-bit IPv4 number. *)
Theorem As4_equal_same_number (a b : netip.Addr) :
  Rules.has4 a = true -> Rules.has4 b = true ->
  (ippool.As4_equal a b = Normal true /\ netip.v4value a = netip.v4value b)
  \/ (ippool.As4_equal a b = Normal false /\ netip.v4value a <> netip.v4value b).
Proof.
  intros Ha Hb. rewrite (As4_equal_has4 a b Ha Hb). unfold Rules.sameIP.
  destruct (Z.eqb_spec (netip.v4value a) (netip.v4value b)); [left | right]; auto.
Qed.

Lemma As4_equal_same_number_witness :
  ippool.As4_equal (netip.Addr4In6 192 168 0 1) (netip.AddrFrom4 192 168 0 1)
  = Normal true
  /\ netip.v4value (netip.Addr4In6 192 168 0 1) = netip.v4value (netip.AddrFrom4 192 168 0 1).
Proof.
  destruct (As4_equal_same_number (netip.Addr4In6 192 168 0 1)
                                  (netip.AddrFrom4 192 168 0 1) eq_refl eq_refl)
    as [H|[H _]]; [exact H | discriminate H].
Defined.

(** ** Rendering of IPv4 addresses *)

Lemma appendDecimal_append (b : string) (x : Z) :
  netip.appendDecimal b x = b ++ netip.appendDecimal "" x.
Proof.
  unfold netip.appendDecimal.
  destruct (x >=? 100), (x >=? 10); cbn [append]; now rewrite ?append_assoc.
Qed.

Lemma string4_form (ip : netip.Addr) :
  netip.string4 ip
  = netip.appendDecimal "" (netip.v4 ip 0) ++ "."
    ++ netip.appendDecimal "" (netip.v4 ip 1) ++ "."
    ++ netip.appendDecimal "" (netip.v4 ip 2) ++ "."
    ++ netip.appendDecimal "" (netip.v4 ip 3).
Proof.
  unfold netip.string4, netip.appendTo4.
  rewrite (appendDecimal_append (_ ++ ".") (netip.v4 ip 3)).
  rewrite (appendDecimal_append (_ ++ ".") (netip.v4 ip 2)).
  rewrite (appendDecimal_append (_ ++ ".") (netip.v4 ip 1)).
  now rewrite !append_assoc.
Qed.

(** Facts about the 256 byte values, each checked on all of them. *)
Lemma bytes_all (P : Z -> bool) :
  forallb (fun n => P (Z.of_nat n)) (seq 0 256) = true ->
  forall x, 0 <= x < 256 -> P x = true.
Proof.
  intros H x R. rewrite forallb_forall in H.
  specialize (H (Z.to_nat x)). rewrite Z2Nat.id in H by lia.
  apply H, in_seq. lia.
Qed.

Lemma decimal_without_dot (x : Z) :
  0 <= x < 256 -> Rules.without "." (netip.appendDecimal "" x) = true.
Proof.
  apply (bytes_all (fun x => Rules.without "." (netip.appendDecimal "" x))).
  vm_compute. reflexivity.
Qed.

Lemma decimal_inj (x y : Z) :
  0 <= x < 256 -> 0 <= y < 256 ->
  netip.appendDecimal "" x = netip.appendDecimal "" y -> x = y.
Proof.
  intros Rx Ry E.
  pose proof (bytes_all
                (fun x => forallb
                            (fun m => implb (String.eqb (netip.appendDecimal "" x)
                                                        (netip.appendDecimal "" (Z.of_nat m)))
                                            (x =? Z.of_nat m))
                            (seq 0 256))
                ltac:(vm_compute; reflexivity) x Rx) as H.
  rewrite forallb_forall in H. specialize (H (Z.to_nat y)).
  rewrite Z2Nat.id in H by lia.
  rewrite E, String.eqb_refl in H. cbn [implb] in H.
  apply Z.eqb_eq, H, in_seq. lia.
Qed.

(** Two texts cut at their first dot are equal part by part. *)
Lemma cut_at_dot (a a' r r' : string) :
  Rules.without "." a = true -> Rules.without "." a' = true ->
  a ++ String "." r = a' ++ String "." r' -> a = a' /\ r = r'.
Proof.
  revert a'. induction a as [|c a IH]; intros [|c' a']; cbn [Rules.without append];
    rewrite ?andb_true_iff, ?negb_true_iff, ?Ascii.eqb_neq.
  - intros _ _ E. injection E as E. now split.
  - intros _ [N _] E. injection E as E _. now subst c'.
  - intros [N _] _ E. injection E as E _. now subst c.
  - intros [_ W] [_ W'] E. injection E as -> E.
    destruct (IH a' W W' E) as [-> ->]. now split.
Qed.

Lemma uint8_range (x : Z) : 0 <= uint8 x < 256.
Proof. rewrite uint8_mod. apply Z.mod_pos_bound. lia. Qed.

Lemma v4_bytes (ip : netip.Addr) :
  netip.BEPutUint32 (netip.v4value ip)
  = [netip.v4 ip 0; netip.v4 ip 1; netip.v4 ip 2; netip.v4 ip 3].
Proof.
  unfold netip.v4value, netip.v4. rewrite BEPutUint32_uint32.
  now rewrite Z.shiftr_0_r.
Qed.

(** X13. The text of an IPv4 address determines it: two IPv4 addresses
    are rendered by [String] as the same text exactly when they are the
    same 32-bit number, so the address shown in a rejection identifies the
    offending IPv4 address. *)
Theorem IPv4_text_identifies_address (a b : netip.Addr) :
  netip.Is4 a = true -> netip.Is4 b = true ->
  (netip.String a = netip.String b <-> netip.v4value a = netip.v4value b).
Proof.
  intros Ha Hb.
  assert (Sa : netip.String a = netip.string4 a).
  { unfold netip.String, netip.Is4 in *.
    destruct (netip.z a); cbn [netip.addrDetail_eqb] in Ha; try discriminate.
    reflexivity. }
  assert (Sb : netip.String b = netip.string4 b).
  { unfold netip.String, netip.Is4 in *.
    destruct (netip.z b); cbn [netip.addrDetail_eqb] in Hb; try discriminate.
    reflexivity. }
  rewrite Sa, Sb, !string4_form. split.
  - intros E.
    apply BEPutUint32_inj; try apply uint32_range.
    rewrite !v4_bytes. unfold netip.v4 in *.
    change ("." ++ ?s) with (String "." s) in E.
    cbn [append] in E.
    apply cut_at_dot in E; try (apply decimal_without_dot, uint8_range).
    destruct E as [E0 E].
    apply cut_at_dot in E; try (apply decimal_without_dot, uint8_range).
    destruct E as [E1 E].
    apply cut_at_dot in E; try (apply decimal_without_dot, uint8_range).
    destruct E as [E2 E3].
    apply decimal_inj in E0, E1, E2, E3; try apply uint8_range.
    now rewrite E0, E1, E2, E3.
  - intros E. pose proof (v4_bytes a) as Va. pose proof (v4_bytes b) as Vb.
    rewrite E, Vb in Va. apply cons4_inj in Va.
    destruct Va as (-> & -> & -> & ->). reflexivity.
Qed.

Lemma IPv4_text_identifies_address_witness :
  netip.String (netip.AddrFrom4 192 168 0 2) <> netip.String (netip.AddrFrom4 192 168 0 20).
Proof.
  intros E.
  apply (IPv4_text_identifies_address
           (netip.AddrFrom4 192 168 0 2) (netip.AddrFrom4 192 168 0 20) eq_refl eq_refl)
    in E.
  discriminate E.
Defined.

(** ** White space around the parts of a network identifier *)

Lemma cutPrefix_append (p s s' : string) :
  strings.cutPrefix p s = Some s' -> s = p ++ s'.
Proof.
  revert s. induction p as [|a p IH]; intros [|b s]; cbn [strings.cutPrefix append];
    try discriminate.
  - intros E. now injection E as <-.
  - intros E. now injection E as <-.
  - destruct (Ascii.eqb_spec a b) as [<-|]; [|discriminate].
    intros E. now rewrite (IH s E).
Qed.

Lemma cutPrefix_more (p s s' t : string) :
  strings.cutPrefix p s = Some s' -> strings.cutPrefix p (s ++ t) = Some (s' ++ t).
Proof.
  revert s. induction p as [|a p IH]; intros [|b s]; cbn [strings.cutPrefix append];
    try discriminate.
  - intros E. now injection E as <-.
  - intros E. now injection E as <-.
  - destruct (Ascii.eqb a b); [apply IH | discriminate].
Qed.

Lemma cutAnyPrefix_more (ps : list string) (s s' t : string) :
  strings.cutAnyPrefix ps s = Some s' ->
  exists u, strings.cutAnyPrefix ps (s ++ t) = Some u.
Proof.
  induction ps as [|p ps IH]; cbn [strings.cutAnyPrefix]; [discriminate|].
  destruct (strings.cutPrefix p s) as [u|] eqn:E.
  - intros _. rewrite (cutPrefix_more p s u t E). eauto.
  - intros H. destruct (strings.cutPrefix p (s ++ t)); eauto.
Qed.

Lemma cutAnyPrefix_shorter (ps : list string) (s s' : string) :
  Forall (fun p => p <> "") ps ->
  strings.cutAnyPrefix ps s = Some s' -> (String.length s' < String.length s)%nat.
Proof.
  induction 1 as [|p ps N _ IH]; cbn [strings.cutAnyPrefix]; [discriminate|].
  destruct (strings.cutPrefix p s) as [u|] eqn:E; [|exact IH].
  intros H. injection H as ->. rewrite (cutPrefix_append p s s' E), length_append.
  destruct p; [contradiction | cbn [String.length]; lia].
Qed.

Lemma cutAnyPrefix_suffix (ps : list string) (s s' : string) :
  strings.cutAnyPrefix ps s = Some s' -> exists q, s = q ++ s'.
Proof.
  induction ps as [|p ps IH]; cbn [strings.cutAnyPrefix]; [discriminate|].
  destruct (strings.cutPrefix p s) as [u|] eqn:E; [|exact IH].
  intros H. injection H as ->. exists p. now apply cutPrefix_append.
Qed.

(** With fuel for every byte, nothing is left to cut, and what is returned
    is an end of the text. *)
Lemma trimLeft_done (ps : list string) (n : nat) (s : string) :
  Forall (fun p => p <> "") ps -> (String.length s <= n)%nat ->
  strings.cutAnyPrefix ps (strings.trimLeft ps n s) = None
  /\ exists q, s = q ++ strings.trimLeft ps n s.
Proof.
  intros N. revert s. induction n as [|n IH]; intros s L; cbn [strings.trimLeft].
  - split; [|now exists ""].
    destruct (strings.cutAnyPrefix ps s) as [u|] eqn:E; [|reflexivity].
    pose proof (cutAnyPrefix_shorter ps s u N E). lia.
  - destruct (strings.cutAnyPrefix ps s) as [u|] eqn:E.
    + pose proof (cutAnyPrefix_shorter ps s u N E) as Sh.
      destruct (IH u ltac:(lia)) as [D [q Q]]. split; [exact D|].
      destruct (cutAnyPrefix_suffix ps s u E) as [q' ->].
      exists (q' ++ q). now rewrite append_assoc, <- Q.
    + split; [exact E | now exists ""].
Qed.

Lemma spaces_not_empty :
  Forall (fun p => p <> "") strings.spaces
  /\ Forall (fun p => p <> "") (map strings.rev strings.spaces).
Proof. split; repeat constructor; discriminate. Qed.

Lemma length_rev (s : string) : String.length (strings.rev s) = String.length s.
Proof.
  induction s as [|c s IH]; cbn [strings.rev String.length]; [reflexivity|].
  rewrite length_append, IH. cbn [String.length]. lia.
Qed.

(** What [strings.TrimSpace] returns has no white space at either end. *)
Lemma TrimSpace_is_trimmed (s : string) : Rules.trimmed (strings.TrimSpace s) = true.
Proof.
  destruct spaces_not_empty as [NL NR].
  unfold strings.TrimSpace, Rules.trimmed.
  set (s1 := strings.trimLeft strings.spaces (String.length s) s).
  destruct (trimLeft_done strings.spaces (String.length s) s NL (le_n _)) as [L1 _].
  fold s1 in L1.
  destruct (trimLeft_done (map strings.rev strings.spaces) (String.length s1)
                          (strings.rev s1) NR)
    as [R2 [q Q]]; [rewrite length_rev; lia|].
  set (r := strings.trimLeft (map strings.rev strings.spaces) (String.length s1)
                             (strings.rev s1)) in *.
  rewrite rev_involutive, R2.
  destruct (strings.cutAnyPrefix strings.spaces (strings.rev r)) as [u|] eqn:E;
    [|reflexivity].
  exfalso.
  assert (S1 : s1 = strings.rev r ++ strings.rev q).
  { rewrite <- (rev_involutive s1), Q. apply rev_append. }
  destruct (cutAnyPrefix_more _ _ _ (strings.rev q) E) as [u' E'].
  rewrite <- S1, L1 in E'. discriminate E'.
Qed.

(** X14. The namespace and the name [checkNAD] hands to the registry
    never carry white space at either end, whatever the identifier. *)
Theorem checkNAD_query_is_trimmed (C : Type) (v : ippool.Validator C) (s : string) :
  exists namespace name : string,
    trace (ippool.checkNAD v s) = [CallNadCacheGet namespace name]
    /\ Rules.trimmed namespace = true
    /\ Rules.trimmed name = true.
Proof.
  unfold ippool.checkNAD, kv.RSplit.
  destruct (Nat.eqb (List.length (strings.SplitN2 s "/")) 1); cbv beta iota zeta.
  - exists "default", (strings.TrimSpace (nth 0 (strings.SplitN2 s "/") "")).
    split; [reflexivity|]. split; [reflexivity | apply TrimSpace_is_trimmed].
  - destruct (String.eqb_spec (strings.TrimSpace (nth 0 (strings.SplitN2 s "/") "")) "")
      as [E|N].
    + exists "default", (strings.TrimSpace (kv.safeIndex (strings.SplitN2 s "/") 1)).
      split; [reflexivity|].
      split; [reflexivity | apply TrimSpace_is_trimmed].
    + exists (strings.TrimSpace (nth 0 (strings.SplitN2 s "/") "")),
             (strings.TrimSpace (kv.safeIndex (strings.SplitN2 s "/") 1)).
      split; [reflexivity|]. split; apply TrimSpace_is_trimmed.
Qed.

(** ** When Update accepts *)

(** The server check with allocated addresses, from the check without. *)
Lemma checkServerIP_split (pi : util.PoolInfo) (allocated : list netip.Addr) :
  ippool.checkServerIP pi allocated
  = match ippool.checkServerIP pi [] with
    | Normal None =>
        if netip.IsValid (util.ServerIPAddr pi)
           && existsb (netip.Addr_eqb (util.ServerIPAddr pi)) allocated
        then Normal (Some (errorString ("server ip "
                                        ++ netip.String (util.ServerIPAddr pi)
                                        ++ " is already allocated")))
        else Normal None
    | r => r
    end.
Proof.
  unfold ippool.checkServerIP. rewrite !checkServerIP_allocated_existsb.
  destruct (netip.IsValid (util.ServerIPAddr pi)); cbn [negb andb]; [|reflexivity].
  destruct (ippool.IPNet_Contains pi (util.ServerIPAddr pi)) as [[|]|];
    cbn [bind negb]; try reflexivity.
  destruct (ippool.As4_equal _ (util.NetworkIPAddr pi)) as [[|]|];
    cbn [bind]; try reflexivity.
  destruct (ippool.As4_equal _ (util.BroadcastIPAddr pi)) as [[|]|];
    cbn [bind]; try reflexivity.
  destruct (if netip.IsValid (util.RouterIPAddr pi)
            then ippool.As4_equal (util.ServerIPAddr pi) (util.RouterIPAddr pi)
            else Normal false) as [[|]|];
    cbn [bind existsb]; try reflexivity.
  destruct (existsb _ allocated); reflexivity.
Qed.

Section UpdateAccepts.

Variable LoadPool : IPPool.t -> util.PoolInfo * option error.
Variable LoadAllocated : list (string * string) -> list netip.Addr.
Variable Cache : Type.
Variable CreateErr : string.

(** X15. For a pool object not marked for deletion, [Update] accepts
    exactly when [Create] accepts the same object and the loaded server
    address is absent or equal to none of the allocated addresses read
    from the status. *)
Theorem Update_accepts_iff (v : ippool.Validator Cache) (oldObj obj : IPPool.t) :
  IPPool.DeletionTimestamp obj = None ->
  (verdict (ippool.Update LoadPool LoadAllocated CreateErr v oldObj obj) = Normal None
   <-> verdict (ippool.Create LoadPool CreateErr v obj) = Normal None
       /\ (netip.IsValid (util.ServerIPAddr (fst (LoadPool obj)))
           && existsb (netip.Addr_eqb (util.ServerIPAddr (fst (LoadPool obj))))
                      match IPPool.IPv4 (IPPool.Status obj) with
                      | Some st => LoadAllocated (IPPool.Allocated st)
                      | None => []
                      end = false)).
Proof.
  intros HD. unfold ippool.Update, ippool.Create. rewrite HD. verdict_step.
  destruct (LoadPool obj) as [pi [e|]]; cbn [fst]; verdict_step.
  { split; [discriminate | intros [H _]; discriminate]. }
  destruct (IPPool.IPv4 (IPPool.Status obj)) as [st|]; verdict_step.
  - destruct (verdict (ippool.checkNAD v _)) as [[e|]|m]; cbn [bind]; verdict_step;
      try (split; [discriminate | intros [H _]; discriminate]).
    destruct (ippool.checkPoolRange pi) as [[e|]|m]; cbn [bind]; verdict_step;
      try (split; [discriminate | intros [H _]; discriminate]).
    rewrite (checkServerIP_split pi (LoadAllocated (IPPool.Allocated st))).
    destruct (ippool.checkServerIP pi []) as [[e|]|m]; cbn [bind]; verdict_step;
      try (split; [discriminate | intros [H _]; discriminate]).
    destruct (netip.IsValid (util.ServerIPAddr pi)
              && existsb (netip.Addr_eqb (util.ServerIPAddr pi))
                         (LoadAllocated (IPPool.Allocated st)));
      cbn [bind]; verdict_step.
    { split; [discriminate | intros [_ H]; discriminate]. }
    destruct (ippool.checkRouter pi) as [[e|]|m]; cbn [bind]; verdict_step;
      try (split; [discriminate | intros [H _]; discriminate]).
    split; auto.
  - cbn [existsb]. rewrite andb_false_r.
    split; [intros H; split; [exact H | reflexivity] | intros [H _]; exact H].
Qed.

End UpdateAccepts.

Lemma Update_accepts_iff_witness :
  verdict (ippool.Update Scenario.loader Scenario.otherAllocated "%s %s/%s: %w"
                         Scenario.validator (Scenario.ipPool None) (Scenario.ipPool None))
  = Normal None.
Proof.
  apply (Update_accepts_iff Scenario.loader Scenario.otherAllocated unit "%s %s/%s: %w"
                            Scenario.validator (Scenario.ipPool None)
                            (Scenario.ipPool None) eq_refl).
  split; reflexivity.
Defined.
